(** * ChatbotPyOpenAi: the conversation context and its pruning

    A shallow embedding of [chatbotpyopenai.py]: the classes
    [ChatCompletionApi], [ChatManager], [ChatMessage], [Context] and
    [Personality], with the statements of the specification settled
    against them.

    Conventions of the embedding.
    - A Python [str] is a [string]; each [ascii] stands for the code point
      of the same number, so the strings covered are those whose code
      points are below 256.
    - A Python value that may be [None] is an [option].
    - JSON-shaped Python values (what [to_dict] builds, what
      [response.json()] returns, what is handed to [requests.post]) are
      values of [json]; JSON numbers are the integers.
    - The tokenizer ([tiktoken]) and the completion service (what
      [requests.post] answers) are not part of the program: they are the
      variables [encode] and [service] of the section below.
    - Methods are state transformers that return an [outcome]: a value,
      a raised exception, or [Diverge] when the fuel given to a [while]
      loop runs out.  A raised exception keeps the mutations made before
      it, as in Python.
    - [print] is not modelled. *)

From Stdlib Require Import ZArith Lia Ascii.
From stdpp Require Import base list strings pretty.

Local Open Scope Z_scope.

(** ** Python strings *)

Module PyStr.

Definition backslash : ascii := "092"%char.
Definition dquote : ascii := "034"%char.

Definition code (c : ascii) : N := N_of_ascii c.

Definition str1 (c : ascii) : string := String c EmptyString.

(** [str.isspace] on one character, for the code points below 256:
    tab to carriage return, the four separators 28..31, the space,
    NEL (133) and the no-break space (160). *)
Definition isspace (c : ascii) : bool :=
  let n := code c in
  ((9 <=? n) && (n <=? 13) || (28 <=? n) && (n <=? 32)
   || (n =? 133) || (n =? 160))%N.

Fixpoint lstrip (s : string) : string :=
  match s with
  | EmptyString => EmptyString
  | String c s' => if isspace c then lstrip s' else s
  end.

(** [rstrip] keeps a character when it is not a space or when something
    is left after it. *)
Fixpoint rstrip (s : string) : string :=
  match s with
  | EmptyString => EmptyString
  | String c s' =>
      match rstrip s' with
      | EmptyString => if isspace c then EmptyString else str1 c
      | r => String c r
      end
  end.

(** [s.strip()] *)
Definition strip (s : string) : string := rstrip (lstrip s).

Definition hexdigit (n : N) : ascii :=
  (if n <? 10 then ascii_of_N (48 + n) else ascii_of_N (87 + n))%N.

(** One character of [json.dumps] output under [ensure_ascii=True]
    ([ESCAPE_ASCII] and [ESCAPE_DCT] of [json.encoder]): the printable
    ASCII characters but the backslash and the double quote stand for
    themselves, the others are escaped. *)
Definition escape_char (c : ascii) : string :=
  let n := code c in
  if (n =? 92)%N then String backslash (str1 backslash)
  else if (n =? 34)%N then String backslash (str1 dquote)
  else if (n =? 8)%N then String backslash "b"
  else if (n =? 12)%N then String backslash "f"
  else if (n =? 10)%N then String backslash "n"
  else if (n =? 13)%N then String backslash "r"
  else if (n =? 9)%N then String backslash "t"
  else if ((32 <=? n) && (n <=? 126))%N then str1 c
  else String backslash
         (String "u" (String "0" (String "0"
            (String (hexdigit (n / 16)) (str1 (hexdigit (n mod 16))))))).

Fixpoint escape (s : string) : string :=
  match s with
  | EmptyString => EmptyString
  | String c s' => escape_char c +:+ escape s'
  end.

(** [json.dumps] of a [str]: the escaped text between double quotes. *)
Definition dumps (s : string) : string :=
  String dquote (escape s +:+ str1 dquote).

(** [sep.join(parts)] *)
Fixpoint join (sep : string) (parts : list string) : string :=
  match parts with
  | [] => EmptyString
  | [p] => p
  | p :: ps => p +:+ sep +:+ join sep ps
  end.

End PyStr.

(** ** JSON-shaped Python values *)

Inductive json : Type :=
| JNull
| JBool (b : bool)
| JNum (n : Z)
| JStr (s : string)
| JList (l : list json)
| JDict (d : list (string * json)).

(** [json.dumps(j)] with the default separators [", "] and [": "]. *)
Fixpoint json_dumps (j : json) : string :=
  match j with
  | JNull => "null"
  | JBool true => "true"
  | JBool false => "false"
  | JNum n => pretty n
  | JStr s => PyStr.dumps s
  | JList l => "[" +:+ PyStr.join ", " (map json_dumps l) +:+ "]"
  | JDict d =>
      "{" +:+ PyStr.join ", "
                (map (fun kv => match kv with
                                | (k, v) => PyStr.dumps k +:+ ": " +:+ json_dumps v
                                end) d) +:+ "}"
  end.

(** ** Outcomes and the state monad of the methods *)

Inductive exn : Type :=
| AttributeError
| KeyError
| IndexError
| TypeError
| JSONDecodeError.

Inductive outcome (A : Type) : Type :=
| Ret (a : A)
| Raise (e : exn)
| Diverge.

Arguments Ret {A} a.
Arguments Raise {A} e.
Arguments Diverge {A}.

Definition M (S A : Type) : Type := S -> outcome A * S.

Definition ret {S A} (a : A) : M S A := fun s => (Ret a, s).

Definition raise {S A} (e : exn) : M S A := fun s => (Raise e, s).

Definition diverge {S A} : M S A := fun s => (Diverge, s).

Definition bind {S A B} (m : M S A) (k : A -> M S B) : M S B :=
  fun s =>
    match m s with
    | (Ret a, s') => k a s'
    | (Raise e, s') => (Raise e, s')
    | (Diverge, s') => (Diverge, s')
    end.

Definition get {S} : M S S := fun s => (Ret s, s).

Definition modify {S} (f : S -> S) : M S unit := fun s => (Ret tt, f s).

(** Runs a computation on one component of a pair, the other kept. *)
Definition on_snd {S1 S2 A} (m : M S2 A) : M (S1 * S2) A :=
  fun s =>
    match m (snd s) with
    | (o, s2) => (o, (fst s, s2))
    end.

Notation "'let*' x ':=' m 'in' k" := (bind m (fun x => k))
  (at level 10, x name, m at level 100, k at level 200,
   format "'[v' 'let*'  x  ':='  m  'in' '/' k ']'").

(** A list comprehension [[f(m) for m in l]] whose body may raise. *)
Fixpoint comprehension {S A B} (f : A -> M S B) (l : list A) : M S (list B) :=
  match l with
  | [] => ret []
  | a :: l' =>
      let* b := f a in
      let* bs := comprehension f l' in
      ret (b :: bs)
  end.

(** ** Python lists *)

Module PyList.
Section ops.
Context {A : Type}.

(** [del l[i:j]] for [0 <= i] and [0 <= j]: nothing goes when [j <= i]. *)
Definition del_slice (i j : nat) (l : list A) : list A :=
  take i l ++ drop (i `max` j) l.

(** [del l[i:]] *)
Definition del_from (i : nat) (l : list A) : list A := take i l.

(** [l.insert(i, x)] for [0 <= i]: at the end when [i] is past it. *)
Definition insert (i : nat) (x : A) (l : list A) : list A :=
  take i l ++ x :: drop i l.

(** [l.append(x)] *)
Definition append (x : A) (l : list A) : list A := l ++ [x].
End ops.

(** [sum(l)] *)
Definition sum (l : list Z) : Z := foldr Z.add 0 l.
End PyList.

(** ** Subscripts and methods on JSON-shaped values *)

Fixpoint dict_get (d : list (string * json)) (k : string) : option json :=
  match d with
  | [] => None
  | (k', v) :: d' => if String.eqb k' k then Some v else dict_get d' k
  end.

(** [j[k]] for a [str] key [k]. *)
Definition getitem_key {S} (j : json) (k : string) : M S json :=
  match j with
  | JDict d =>
      match dict_get d k with
      | Some v => ret v
      | None => raise KeyError
      end
  | _ => raise TypeError
  end.

(** [j[0]]; the keys of a JSON object are strings, so [0] is none of them. *)
Definition getitem_0 {S} (j : json) : M S json :=
  match j with
  | JList (x :: _) => ret x
  | JList [] => raise IndexError
  | JStr (String c _) => ret (JStr (PyStr.str1 c))
  | JStr EmptyString => raise IndexError
  | JDict _ => raise KeyError
  | _ => raise TypeError
  end.

(** [j.strip()]: only a [str] has the method. *)
Definition strip_method {S} (j : json) : M S string :=
  match j with
  | JStr s => ret (PyStr.strip s)
  | _ => raise AttributeError
  end.

(** ** Configuration constants *)

Definition API_MODEL : string := "gpt-3.5-turbo".
Definition API_TOKEN_LIMIT : Z := 4096.
Definition API_URL : string := "https://api.openai.com/v1/chat/completions".
Definition MAX_TOKENS : Z := 800.
Definition SUMMARY_PROMPT : string := "Summarize this conversation so far.".
Definition TEMPERATURE : Z := 1.

(** ** The world outside the program *)

(** What [requests.post(API_URL, headers=headers, json=data)] sends. *)
Record request : Type := Request {
  url : string;
  headers : list (string * string);
  data : json
}.

(** What it returns: [body] is [None] when the body is not JSON, in which
    case [response.json()] raises. *)
Record http_response : Type := Response {
  status_code : Z;
  reason : string;
  body : option json
}.

(** The requests posted so far, oldest first, and the wall clock in
    seconds. *)
Record world : Type := World {
  posted : list request;
  clock : Z
}.

(** ** The objects *)

Record ChatMessage : Type := mkChatMessage {
  role : string;
  content : string;
  creation_time : Z;
  tokenlen : Z
}.

Record Personality : Type := mkPersonality {
  name : string;
  description : string;
  system_prompt : string
}.

(** An entry of [context_list] or [history] is [None] when
    [get_response] returned [None] and the caller stored it. *)
Record Context : Type := mkContext {
  context_list : list (option ChatMessage);
  summary_message : ChatMessage
}.

Record ChatManager : Type := mkChatManager {
  context : Context;
  history : list (option ChatMessage)
}.

(** [o.f()] on an object that may be [None]. *)
Definition method {S A} (f : ChatMessage -> A) (o : option ChatMessage) : M S A :=
  match o with
  | Some m => ret (f m)
  | None => raise AttributeError
  end.

(** Accessors of the state of a [Context] method and of a [ChatManager]
    method. *)
Definition self_context {W} : M (Context * W) Context :=
  fun s => (Ret (fst s), s).

Definition set_context_list {W} (f : list (option ChatMessage) -> list (option ChatMessage))
  : M (Context * W) unit :=
  modify (fun s => (mkContext (f (context_list (fst s))) (summary_message (fst s)), snd s)).

Definition set_history {W} (f : list (option ChatMessage) -> list (option ChatMessage))
  : M (ChatManager * W) unit :=
  modify (fun s => (mkChatManager (context (fst s)) (f (history (fst s))), snd s)).

Definition self_manager {W} : M (ChatManager * W) ChatManager :=
  fun s => (Ret (fst s), s).

(** Runs a method of [self.context] inside a method of the manager. *)
Definition on_context {W A} (m : M (Context * W) A) : M (ChatManager * W) A :=
  fun s =>
    match m (context (fst s), snd s) with
    | (o, (c, w)) => (o, (mkChatManager c (history (fst s)), w))
    end.

(** ** The program *)

Section Program.

(** [tiktoken.encoding_for_model(API_MODEL).encode] *)
Variable encode : string -> list N.

(** The completion service: its answer to a request, given the requests
    posted before it. *)
Variable service : list request -> request -> http_response.

(** The key read from [config.ini]. *)
Variable API_KEY : string.

(** *** The world's primitives *)

(** [requests.post]: the transport delivers the service's answer. *)
Definition requests_post (req : request) : M world http_response :=
  fun w => (Ret (service (posted w) req), World (posted w ++ [req]) (clock w)).

Definition time_sleep (seconds : Z) : M world unit :=
  modify (fun w => World (posted w) (clock w + seconds)).

Definition datetime_now : M world Z := fun w => (Ret (clock w), w).

(** [response.json()] *)
Definition response_json (response : http_response) : M world json :=
  match body response with
  | Some j => ret j
  | None => raise JSONDecodeError
  end.

(** *** class ChatMessage *)

Definition to_dict (self : ChatMessage) : json :=
  JDict [("role", JStr (role self)); ("content", JStr (content self))].

Definition to_json (self : ChatMessage) : string :=
  json_dumps (JDict [("role", JStr (role self)); ("content", JStr (content self))]).

Definition get_tokenlen (self : ChatMessage) : Z :=
  Z.of_nat (length (encode (to_json self))).

Definition get_content (self : ChatMessage) : string := content self.

Definition get_role (self : ChatMessage) : string := role self.

(** [ChatMessage(role, content)]: [tokenlen] is computed from the object
    whose other attributes are already set. *)
Definition ChatMessage_init (role content : string) : M world ChatMessage :=
  let* now := datetime_now in
  let self := mkChatMessage role content now 0 in
  ret (mkChatMessage role content now (get_tokenlen self)).

(** *** class ChatCompletionApi *)

Definition request_headers : list (string * string) :=
  [("Content-Type", "application/json");
   ("Authorization", "Bearer " +:+ API_KEY)].

Definition request_data (message_list : json) : json :=
  JDict [("messages", message_list);
         ("temperature", JNum TEMPERATURE);
         ("max_tokens", JNum MAX_TOKENS);
         ("model", JStr API_MODEL)].

(** [get_response(message_list, role="user")]; [role_arg] is [None] when
    the caller leaves the role out.  One unit of fuel is one turn of the
    [while True] loop.  After [strip()] the completion is a [str], so
    the [isinstance] test never fails and its branch is left out. *)
Fixpoint get_response (fuel : nat) (message_list : json) (role_arg : option string)
  : M world (option ChatMessage) :=
  match fuel with
  | O => diverge
  | S fuel' =>
      let role := default "user" role_arg in
      let* response :=
        requests_post (Request API_URL request_headers (request_data message_list)) in
      if status_code response =? 200 then
        let* content := response_json response in
        let* choices := getitem_key content "choices" in
        let* choice := getitem_0 choices in
        let* message := getitem_key choice "message" in
        let* text := getitem_key message "content" in
        let* completion := strip_method text in
        let* m := ChatMessage_init role completion in
        ret (Some m)
      else if status_code response =? 429 then
        let* _ := time_sleep 1 in
        get_response fuel' message_list role_arg
      else
        let* _ := response_json response in
        ret None
  end.

(** *** class Personality *)

Definition get_personality_prompt (self : Personality) : M world ChatMessage :=
  ChatMessage_init "system" (system_prompt self).

(** *** class Context *)

Definition Context_init (personality : Personality) : M world Context :=
  let* pinned := get_personality_prompt personality in
  let* summary := ChatMessage_init "user" SUMMARY_PROMPT in
  ret (mkContext [Some pinned] summary).

Definition get_context_tokenlen : M (Context * world) Z :=
  let* self := self_context in
  let* lens := comprehension (method get_tokenlen) (context_list self) in
  ret (PyList.sum lens).

Definition summarize_context (fuel : nat) : M (Context * world) (option ChatMessage) :=
  let* self := self_context in
  let summary_list := PyList.append (Some (summary_message self)) (context_list self) in
  let* dicts := comprehension (method to_dict) summary_list in
  let prepared_summary_list := json_dumps (JList dicts) in
  on_snd (get_response fuel (JStr prepared_summary_list) None).

Definition prune_context (fuel : nat) : M (Context * world) unit :=
  let* context_summary := summarize_context fuel in
  let* _ := set_context_list (PyList.del_slice 1 9) in
  set_context_list (PyList.insert 1 context_summary).

Definition reset_context : M (Context * world) unit :=
  set_context_list (PyList.del_from 1).

(** The [while] loop of [get_prepared_context]; one unit of fuel is one
    test of its condition. *)
Fixpoint get_prepared_context_while (fuel : nat) (prompt : ChatMessage)
  : M (Context * world) unit :=
  match fuel with
  | O => diverge
  | S fuel' =>
      let* total := get_context_tokenlen in
      let* self := self_context in
      if API_TOKEN_LIMIT <? total + get_tokenlen prompt + MAX_TOKENS
                             + get_tokenlen (summary_message self)
      then
        let* _ := prune_context fuel' in
        get_prepared_context_while fuel' prompt
      else ret tt
  end.

Definition get_prepared_context (fuel : nat) (prompt : ChatMessage)
  : M (Context * world) (list json) :=
  let* _ := get_prepared_context_while fuel prompt in
  let* _ := set_context_list (PyList.append (Some prompt)) in
  let* self := self_context in
  comprehension (method to_dict) (context_list self).

(** *** class ChatManager *)

Definition ChatManager_init (personality : Personality) : M world ChatManager :=
  let* c := Context_init personality in
  let* first := get_personality_prompt personality in
  ret (mkChatManager c [Some first]).

Definition get_history : M (ChatManager * world) (list json) :=
  let* self := self_manager in
  comprehension (method to_dict) (history self).

Definition reset_chat : M (ChatManager * world) unit :=
  let* _ := on_context reset_context in
  set_history (PyList.del_from 1).

Definition update_history (prompt : ChatMessage) (response : option ChatMessage)
  : M (ChatManager * world) unit :=
  let* _ := set_history (PyList.append (Some prompt)) in
  set_history (PyList.append response).

Definition submit_prompt (fuel : nat) (prompt : ChatMessage)
  : M (ChatManager * world) (option ChatMessage) :=
  let* json_context := on_context (get_prepared_context fuel prompt) in
  let* response := on_snd (get_response fuel (JList json_context) (Some "assistant")) in
  let* _ := update_history prompt response in
  ret response.

End Program.

(** ** Fixtures: a tokenizer, three services, a conversation *)

Module Fixture.

(** One token per character. *)
Definition char_encode (s : string) : list N :=
  map N_of_ascii (String.list_ascii_of_string s).

(** The body of a successful answer whose completion is [text]. *)
Definition completion_body (text : string) : json :=
  JDict [("choices",
          JList [JDict [("index", JNum 0);
                        ("message", JDict [("role", JStr "assistant");
                                           ("content", JStr text)])]])].

Definition error_body : json :=
  JDict [("error", JDict [("message", JStr "The server had an error")])].

(** Answers every request with the same completion. *)
Definition ok_service (text : string) : list request -> request -> http_response :=
  fun _ _ => Response 200 "OK" (Some (completion_body text)).

(** Answers every request with a server fault. *)
Definition down_service : list request -> request -> http_response :=
  fun _ _ => Response 500 "Internal Server Error" (Some error_body).

(** Rate-limits the first [n] requests, then answers with [text]. *)
Definition busy_service (n : nat) (text : string)
  : list request -> request -> http_response :=
  fun earlier _ =>
    if (length earlier <? n)%nat
    then Response 429 "Too Many Requests" (Some error_body)
    else Response 200 "OK" (Some (completion_body text)).

Definition api_key : string := "api_key_here".

Definition helpful : Personality :=
  mkPersonality "Helpful" "A helpful assistant" "You are a helpful assistant.".

Definition world0 : world := World [] 0.

(** [n] times the letter a. *)
Definition filler (n : nat) : string := String.string_of_list_ascii (replicate n "a"%char).

(** [ChatMessage(role, content)] built at time [t]. *)
Definition message_at (t : Z) (role content : string) : ChatMessage :=
  mkChatMessage role content t
    (get_tokenlen char_encode (mkChatMessage role content t 0)).

Definition pinned0 : ChatMessage := message_at 0 "system" "You are a helpful assistant.".

Definition summary0 : ChatMessage := message_at 0 "user" SUMMARY_PROMPT.

(** The context and the manager of a fresh [Helpful] chat. *)
Definition context0 : Context := mkContext [Some pinned0] summary0.

Definition manager0 : ChatManager := mkChatManager context0 [Some pinned0].

Definition hello : ChatMessage := message_at 0 "user" "Hello there".

Definition long1 : ChatMessage := message_at 0 "user" (filler 1600).

Definition long2 : ChatMessage := message_at 0 "user" (filler 1600 +:+ "b").

Definition so_far : ChatMessage := message_at 0 "user" "so far".

Definition reply : ChatMessage := message_at 0 "assistant" "so far".

(** The context once [long1] is in it, and once [long2] has pushed it
    through one round of pruning. *)
Definition context1 : Context := mkContext [Some pinned0; Some long1] summary0.

Definition context2 : Context :=
  mkContext [Some pinned0; Some so_far; Some long2] summary0.

(** A context of one turn and a context of two. *)
Definition context_hello : Context := mkContext [Some pinned0; Some hello] summary0.

Definition context_pair : Context :=
  mkContext [Some pinned0; Some hello; Some hello] summary0.

(** The request of a summarization call and of a chat call. *)
Definition summary_request (l : list ChatMessage) : request :=
  Request API_URL (request_headers api_key)
    (request_data (JStr (json_dumps (JList (to_dict <$> l))))).

Definition chat_request (l : list ChatMessage) : request :=
  Request API_URL (request_headers api_key) (request_data (JList (to_dict <$> l))).

End Fixture.

(** ** Vocabulary of the statements *)

(** The messages of a list none of whose entries is [None]. *)
Fixpoint messages_of (l : list (option ChatMessage)) : option (list ChatMessage) :=
  match l with
  | [] => Some []
  | Some m :: l' => cons m <$> messages_of l'
  | None :: _ => None
  end.

(** The completion text of a well-shaped body, that is the [str] at
    [body['choices'][0]['message']['content']]. *)
Definition completion_text (body : json) : option string :=
  match body with
  | JDict d =>
      match dict_get d "choices" with
      | Some (JList (JDict choice :: _)) =>
          match dict_get choice "message" with
          | Some (JDict message) =>
              match dict_get message "content" with
              | Some (JStr text) => Some text
              | _ => None
              end
          | _ => None
          end
      | _ => None
      end
  | _ => None
  end.

(** The request that [get_response] posts for a message list. *)
Definition request_of (API_KEY : string) (message_list : json) : request :=
  Request API_URL (request_headers API_KEY) (request_data message_list).

(** The [messages] entry of the data of a request. *)
Definition sent_messages (r : request) : option json :=
  match data r with
  | JDict d => dict_get d "messages"
  | _ => None
  end.

(** The keys of a dict, in order. *)
Definition keys (j : json) : list string :=
  match j with
  | JDict d => fst <$> d
  | _ => []
  end.



(** The first entry of the context list is [x]. *)
Definition first_is (x : option ChatMessage) (s : Context * world) : Prop :=
  context_list (fst s) !! 0%nat = Some x.

(** [m] keeps [P], however it ends. *)
Definition preserves {S A} (P : S -> Prop) (m : M S A) : Prop :=
  forall s o s', m s = (o, s') -> P s -> P s'.

(** Calls on a [Context] and on a [ChatManager]. *)
Inductive context_call : Type :=
| CallPrepare (prompt : ChatMessage)
| CallPrune
| CallReset.

Inductive manager_call : Type :=
| CallSubmit (prompt : ChatMessage)
| CallResetChat
| CallGetHistory.



Section Runs.

Variable encode : string -> list N.
Variable service : list request -> request -> http_response.
Variable API_KEY : string.

Definition run_context_call (fuel : nat) (c : context_call) : M (Context * world) unit :=
  match c with
  | CallPrepare prompt =>
      let* _ := get_prepared_context encode service API_KEY fuel prompt in
      ret tt
  | CallPrune => prune_context encode service API_KEY fuel
  | CallReset => reset_context
  end.

(** The state after a sequence of calls.  A caller may catch an exception
    and go on; a call that does not return ends the sequence. *)
Fixpoint run_context_calls (fuel : nat) (calls : list context_call)
    (s : Context * world) : Context * world :=
  match calls with
  | [] => s
  | c :: calls' =>
      match run_context_call fuel c s with
      | (Diverge, s') => s'
      | (_, s') => run_context_calls fuel calls' s'
      end
  end.

Definition run_manager_call (fuel : nat) (c : manager_call) : M (ChatManager * world) unit :=
  match c with
  | CallSubmit prompt =>
      let* _ := submit_prompt encode service API_KEY fuel prompt in
      ret tt
  | CallResetChat => reset_chat
  | CallGetHistory =>
      let* _ := get_history in
      ret tt
  end.

(** The state after a sequence of calls that all return normally, and
    [None] when one of them raises or does not return. *)
Fixpoint run_manager_calls (fuel : nat) (calls : list manager_call)
    (s : ChatManager * world) : option (ChatManager * world) :=
  match calls with
  | [] => Some s
  | c :: calls' =>
      match run_manager_call fuel c s with
      | (Ret _, s') => run_manager_calls fuel calls' s'
      | _ => None
      end
  end.




End Runs.

(** ** Personality objects, their manager and the command loop *)

Module PySeq.

(** [l[k]] for an integer [k]: a negative index counts from the end, and
    [None] stands for [IndexError]. *)
Definition getitem {A} (k : Z) (l : list A) : option A :=
  let n := Z.of_nat (length l) in
  if (0 <=? k) && (k <? n) then l !! Z.to_nat k
  else if (- n <=? k) && (k <? 0) then l !! Z.to_nat (n + k)
  else None.

(** [l.remove(x)]: the list without the first entry equal to [x], and
    [None], which stands for [ValueError], when no entry is. *)
Fixpoint remove (x : nat) (l : list nat) : option (list nat) :=
  match l with
  | [] => None
  | y :: l' => if (y =? x)%nat then Some l' else cons y <$> remove x l'
  end.

(** [c.lower()] on one character, for the code points below 256: the
    capital letters are A to Z and 192 to 222 but for the sign 215. *)
Definition lower_char (c : ascii) : ascii :=
  let n := N_of_ascii c in
  if ((65 <=? n) && (n <=? 90) || (192 <=? n) && (n <=? 222) && negb (n =? 215))%N
  then ascii_of_N (n + 32)
  else c.

(** [s.lower()] *)
Fixpoint lower (s : string) : string :=
  match s with
  | EmptyString => EmptyString
  | String c s' => String (lower_char c) (lower s')
  end.

End PySeq.

(** A [Personality] object is mutable and may be shared, so the objects
    live in a store and are named by their address.  An address outside
    the store names no object; the functions below pass over it, and the
    program never makes one. *)
Abbreviation store := (list Personality).

(** [Personality(name, description, system_prompt)] *)
Definition Personality_new (name description system_prompt : string) (st : store)
  : nat * store :=
  (length st, st ++ [mkPersonality name description system_prompt]).

Definition get_name (r : nat) (st : store) : option string := name <$> st !! r.

Definition get_description (r : nat) (st : store) : option string :=
  description <$> st !! r.

Definition get_system_prompt (r : nat) (st : store) : option string :=
  system_prompt <$> st !! r.

Definition set_name (r : nat) (v : string) (st : store) : store :=
  alter (fun p => mkPersonality v (description p) (system_prompt p)) r st.

Definition set_description (r : nat) (v : string) (st : store) : store :=
  alter (fun p => mkPersonality (name p) v (system_prompt p)) r st.

Definition set_system_prompt (r : nat) (v : string) (st : store) : store :=
  alter (fun p => mkPersonality (name p) (description p) v) r st.

Record PersonalityManager : Type := mkPersonalityManager {
  personality_list : list nat
}.

(** The state of a method of the manager: the manager and the store. *)
Definition add_personality (r : nat) : M (PersonalityManager * store) unit :=
  modify (fun s => (mkPersonalityManager (personality_list (fst s) ++ [r]), snd s)).

(** The five objects are made in the order of the list. *)
Definition build_default_personalities (st : store) : list nat * store :=
  let '(r1, st) := Personality_new "Helpful" "A helpful assistant"
                     "You are a helpful assistant." st in
  let '(r2, st) := Personality_new "Comedian" "A stand-up comedian buddy"
                     "You are a professional stand-up commedian, but having a conversation with a friend. You commonly use bits of novel comedy routines conversationally." st in
  let '(r3, st) := Personality_new "Computer Expert"
                     "An expert in computers and troubleshooting"
                     "You are a computer expert, skilled in troubleshooting and problem-solving in the IT domain." st in
  let '(r4, st) := Personality_new "Snarky" "A sarcastic AI"
                     "You are a sarcastic assistant, responding with witty and sardonic remarks." st in
  let '(r5, st) := Personality_new "Counselor" "An emotional well-being counselor"
                     "You are a counselor, offering guidance and support to those seeking emotional wellness and personal growth. You are an advocate, and gently shine light where needed for growth." st in
  ([r1; r2; r3; r4; r5], st).

Definition PersonalityManager_init (st : store) : PersonalityManager * store :=
  let '(l, st') := build_default_personalities st in
  (mkPersonalityManager l, st').

(** [self.personality_list[0]] *)
Definition get_default_personality : M (PersonalityManager * store) nat :=
  fun s =>
    match personality_list (fst s) with
    | r :: _ => (Ret r, s)
    | [] => (Raise IndexError, s)
    end.

(** The copy has the entries of the list and shares the objects. *)
Definition get_personalities_list : M (PersonalityManager * store) (list nat) :=
  fun s => (Ret (personality_list (fst s)), s).

(** The loop of [get_personality]: the first object of that name. *)
Fixpoint first_named (personality_name : string) (st : store) (l : list nat)
  : option nat :=
  match l with
  | [] => None
  | r :: l' =>
      match get_name r st with
      | Some n => if String.eqb n personality_name then Some r
                  else first_named personality_name st l'
      | None => first_named personality_name st l'
      end
  end.

Definition get_personality (personality_name : string)
  : M (PersonalityManager * store) (option nat) :=
  fun s => (Ret (first_named personality_name (snd s) (personality_list (fst s))), s).

(** [o.f(v)] on a reference that may be [None]. *)
Definition setter (f : nat -> string -> store -> store) (o : option nat) (v : string)
  : M (PersonalityManager * store) unit :=
  match o with
  | Some r => modify (fun s => (fst s, f r v (snd s)))
  | None => raise AttributeError
  end.

Definition set_personality_description (personality_name new_description : string)
  : M (PersonalityManager * store) unit :=
  let* p := get_personality personality_name in
  setter set_description p new_description.

Definition set_personality_name (personality_name new_name : string)
  : M (PersonalityManager * store) unit :=
  let* p := get_personality personality_name in
  setter set_name p new_name.

Definition set_personality_system_prompt (personality_name new_prompt : string)
  : M (PersonalityManager * store) unit :=
  let* p := get_personality personality_name in
  setter set_system_prompt p new_prompt.

(** What [remove_personality] ends with: [list.remove] raises
    [ValueError], an exception the chat itself never raises. *)
Inductive removal : Type :=
| Removed (s : PersonalityManager * store)
| RaisedValueError.

(** [self.personality_list.remove(self.get_personality(name))]: no entry
    of the list is [None], so [remove(None)] raises. *)
Definition remove_personality (personality_name : string)
    (s : PersonalityManager * store) : removal :=
  match first_named personality_name (snd s) (personality_list (fst s)) with
  | Some r =>
      match PySeq.remove r (personality_list (fst s)) with
      | Some l => Removed (mkPersonalityManager l, snd s)
      | None => RaisedValueError
      end
  | None => RaisedValueError
  end.

(** Every entry of the manager's list is the address of an object. *)
Definition refs_valid (s : PersonalityManager * store) : Prop :=
  Forall (fun r => (r < length (snd s))%nat) (personality_list (fst s)).

(** The names of the entries of a list of references. *)
Definition names_of (st : store) (l : list nat) : list (option string) :=
  (fun r => get_name r st) <$> l.

(** *** main *)

(** The state of [main]: the store of the personalities, the two
    managers, the world, and the lines typed and not yet read. *)
Record main_state : Type := MainState {
  personalities : store;
  personality_manager : PersonalityManager;
  chat_manager : ChatManager;
  outside : world;
  stdin : list string
}.

(** How a run of [main] ends: by [quit], by an exception that nothing
    catches, in the loop or before it, at an [input()] for which no line
    is typed yet, or out of fuel.  [Dangling] stands for the use of an
    address outside the store, which no run reaches. *)
Inductive main_result : Type :=
| Exited (s : main_state)
| Crashed (e : exn) (s : main_state)
| CrashedEarly (e : exn)
| Waiting (s : main_state)
| Unfinished
| Dangling.

Definition with_stdin (lines : list string) (s : main_state) : main_state :=
  MainState (personalities s) (personality_manager s) (chat_manager s) (outside s) lines.

Definition with_chat (m : ChatManager) (w : world) (s : main_state) : main_state :=
  MainState (personalities s) (personality_manager s) m w (stdin s).

Section Console.

Variable encode : string -> list N.
Variable service : list request -> request -> http_response.
Variable API_KEY : string.

(** [int(s)] for a [str]: [None] stands for [ValueError]. *)
Variable py_int : string -> option Z.

(** [chat_manager = ChatManager(l[k])], then the rest [k] of the run. *)
Definition switch_personality (k : Z) (s : main_state)
    (continue : main_state -> main_result) : main_result :=
  match PySeq.getitem k (personality_list (personality_manager s)) with
  | None => Crashed IndexError s
  | Some r =>
      match personalities s !! r with
      | None => Dangling
      | Some p =>
          match ChatManager_init encode p (outside s) with
          | (Ret m, w) => continue (with_chat m w s)
          | (Raise e, w) => Crashed e (with_chat (chat_manager s) w s)
          | (Diverge, w) => Unfinished
          end
      end
  end.

(** The [while True] loop of [main]; one unit of [fuel] is one turn of
    it, and [call_fuel] is the fuel of each call of [submit_prompt]. *)
Fixpoint main_loop (fuel call_fuel : nat) (s : main_state) : main_result :=
  match fuel with
  | O => Unfinished
  | S fuel' =>
      match stdin s with
      | [] => Waiting s
      | user_prompt :: lines =>
          let s := with_stdin lines s in
          if String.eqb (PySeq.lower user_prompt) "quit" then Exited s
          else if String.eqb (PySeq.lower user_prompt) "#personality" then
            let i := Z.of_nat (length (personality_list (personality_manager s))) in
            match stdin s with
            | [] => Waiting s
            | personality_select :: lines =>
                let s := with_stdin lines s in
                match py_int personality_select with
                | None => main_loop fuel' call_fuel s
                | Some n =>
                    let personality_int := n - 1 in
                    if personality_int =? i then
                      match stdin s with
                      | [] => Waiting s
                      | [personality_name] => Waiting (with_stdin [] s)
                      | personality_name :: personality_prompt :: lines =>
                          let '(r, st) :=
                            Personality_new personality_name "Custom" personality_prompt
                              (personalities s) in
                          let s :=
                            MainState st
                              (mkPersonalityManager
                                 (personality_list (personality_manager s) ++ [r]))
                              (chat_manager s) (outside s) lines in
                          switch_personality personality_int s (main_loop fuel' call_fuel)
                      end
                    else if i <? personality_int then main_loop fuel' call_fuel s
                    else switch_personality personality_int s (main_loop fuel' call_fuel)
                end
            end
          else if String.eqb (PySeq.lower user_prompt) "#history" then
            match get_history (chat_manager s, outside s) with
            | (Ret _, _) => main_loop fuel' call_fuel s
            | (Raise e, _) => Crashed e s
            | (Diverge, _) => Unfinished
            end
          else
            match ChatMessage_init encode "user" user_prompt (outside s) with
            | (Ret user_prompt_message, w) =>
                match submit_prompt encode service API_KEY call_fuel user_prompt_message
                        (chat_manager s, w) with
                | (Ret (Some response_message), (m, w')) =>
                    main_loop fuel' call_fuel (with_chat m w' s)
                | (Ret None, (m, w')) => Crashed AttributeError (with_chat m w' s)
                | (Raise e, (m, w')) => Crashed e (with_chat m w' s)
                | (Diverge, _) => Unfinished
                end
            | (Raise e, w) => Crashed e (with_chat (chat_manager s) w s)
            | (Diverge, _) => Unfinished
            end
      end
  end.

(** [main()], started in world [w] with the lines [lines] typed; the
    store is empty when the program starts. *)
Definition main (fuel call_fuel : nat) (w : world) (lines : list string) : main_result :=
  let '(pm, st) := PersonalityManager_init [] in
  match get_default_personality (pm, st) with
  | (Ret r, _) =>
      match st !! r with
      | None => Dangling
      | Some p =>
          match ChatManager_init encode p w with
          | (Ret m, w') => main_loop fuel call_fuel (MainState st pm m w' lines)
          | (Raise e, _) => CrashedEarly e
          | (Diverge, _) => Unfinished
          end
      end
  | (Raise e, _) => CrashedEarly e
  | (Diverge, _) => Unfinished
  end.

End Console.

(** ** Fixtures of the further scenarios *)

Module Scenario.

(** Rate-limits every request. *)
Definition limiting_service : list request -> request -> http_response :=
  fun _ _ => Response 429 "Too Many Requests" (Some Fixture.error_body).

(** Answers every request with a gateway fault whose body is not JSON. *)
Definition garbled_service : list request -> request -> http_response :=
  fun _ _ => Response 502 "Bad Gateway" None.

(** A prompt that alone is over the budget. *)
Definition huge : ChatMessage := Fixture.message_at 0 "user" (Fixture.filler 3300).

(** A manager whose context holds the [None] of a failed summary. *)
Definition poisoned : ChatManager :=
  mkChatManager (mkContext [Some Fixture.pinned0; None] Fixture.summary0)
                [Some Fixture.pinned0].

(** The manager after the two long prompts, and the world then. *)
Definition manager2 : ChatManager :=
  mkChatManager Fixture.context2
    [Some Fixture.pinned0; Some Fixture.long1; Some Fixture.reply;
     Some Fixture.long2; Some Fixture.reply].

Definition world2 : world :=
  World [Fixture.chat_request [Fixture.pinned0; Fixture.long1];
         Fixture.summary_request [Fixture.pinned0; Fixture.long1; Fixture.summary0];
         Fixture.chat_request [Fixture.pinned0; Fixture.so_far; Fixture.long2]] 0.

(** The manager after a turn that failed. *)
Definition manager_failed : ChatManager :=
  mkChatManager Fixture.context_hello
    [Some Fixture.pinned0; Some Fixture.hello; None].

(** A reader of plain decimal numerals, with or without a minus sign,
    standing for [int]. *)
Fixpoint digits (s : string) (acc : Z) : option Z :=
  match s with
  | EmptyString => Some acc
  | String c s' =>
      let n := N_of_ascii c in
      if ((48 <=? n) && (n <=? 57))%N
      then digits s' (10 * acc + Z.of_N (n - 48))
      else None
  end.

Definition decimal (s : string) : option Z :=
  match s with
  | EmptyString => None
  | String "-" EmptyString => None
  | String "-" s' => Z.opp <$> digits s' 0
  | _ => digits s 0
  end.

(** The personalities and the manager that [main] starts with. *)
Definition store0 : store := snd (PersonalityManager_init []).

Definition personalities0 : PersonalityManager := fst (PersonalityManager_init []).

(** [main] at its loop, with the lines [lines] typed. *)
Definition console (lines : list string) : main_state :=
  MainState store0 personalities0 Fixture.manager0 Fixture.world0 lines.

End Scenario.

(** ** Properties *)

Lemma bind_Ret_inv {S A B} (m : M S A) (k : A -> M S B) s b s' :
  bind m k s = (Ret b, s') ->
  exists a s1, m s = (Ret a, s1) /\ k a s1 = (Ret b, s').
Proof.
  unfold bind. destruct (m s) as [[a | e |] s1]; intros H; try discriminate.
  exists a, s1. split; [reflexivity | exact H].
Qed.

Lemma bind_Ret {S A B} (m : M S A) (k : A -> M S B) s a s1 :
  m s = (Ret a, s1) -> bind m k s = k a s1.
Proof. unfold bind. intros ->. reflexivity. Qed.

Lemma messages_of_app l1 l2 :
  messages_of (l1 ++ l2) =
  match messages_of l1, messages_of l2 with
  | Some a, Some b => Some (a ++ b)
  | _, _ => None
  end.
Proof.
  induction l1 as [| [m |] l1 IH]; simpl.
  - destruct (messages_of l2); reflexivity.
  - rewrite IH. destruct (messages_of l1), (messages_of l2); reflexivity.
  - reflexivity.
Qed.

Lemma messages_of_Some l ms : messages_of l = Some ms <-> l = Some <$> ms.
Proof.
  revert ms. induction l as [| [m |] l IH]; intros ms; simpl.
  - split; [intros [= <-]; reflexivity | destruct ms; [reflexivity | discriminate]].
  - destruct (messages_of l) as [ms' |] eqn:E; simpl.
    + split.
      * intros [= <-]. simpl. f_equal. apply IH. reflexivity.
      * destruct ms as [| m0 ms0]; [discriminate |]. intros [= -> H].
        apply IH in H. congruence.
    + split; [discriminate |].
      destruct ms as [| m0 ms0]; [discriminate |]. intros [= -> H].
      apply IH in H. discriminate.
  - split; [discriminate | destruct ms; discriminate].
Qed.

Lemma sum_app l1 l2 : PyList.sum (l1 ++ l2) = PyList.sum l1 + PyList.sum l2.
Proof. unfold PyList.sum. induction l1 as [| x l1 IH]; simpl; lia. Qed.

(** A comprehension that calls a method on every entry raises on the
    first [None] and leaves the state alone. *)
Lemma comprehension_method {S A} (f : ChatMessage -> A) l (s : S) :
  comprehension (method f) l s =
  match messages_of l with
  | Some ms => (Ret (f <$> ms), s)
  | None => (Raise AttributeError, s)
  end.
Proof.
  induction l as [| [m |] l IH]; simpl; try reflexivity.
  unfold bind at 1. simpl. unfold bind at 1. rewrite IH.
  destruct (messages_of l); reflexivity.
Qed.

Lemma preserves_bind {S A B} (P : S -> Prop) (m : M S A) (k : A -> M S B) :
  preserves P m -> (forall a, preserves P (k a)) -> preserves P (bind m k).
Proof.
  intros Hm Hk s o s'. unfold bind.
  destruct (m s) as [[a | e |] s1] eqn:E; intros H HP.
  - exact (Hk a _ _ _ H (Hm _ _ _ E HP)).
  - injection H as _ <-. exact (Hm _ _ _ E HP).
  - injection H as _ <-. exact (Hm _ _ _ E HP).
Qed.

(** A computation that never changes the state keeps every property. *)
Lemma preserves_frame {S A} (P : S -> Prop) (m : M S A) :
  (forall s, snd (m s) = s) -> preserves P m.
Proof. intros Hm s o s' H HP. specialize (Hm s). rewrite H in Hm. simpl in Hm. congruence. Qed.

Lemma comprehension_method_frame {S A} (f : ChatMessage -> A) l (s : S) :
  snd (comprehension (method f) l s) = s.
Proof. rewrite comprehension_method. destruct (messages_of l); reflexivity. Qed.

Lemma first_is_on_snd {A} x (m : M world A) : preserves (first_is x) (on_snd m).
Proof.
  intros [c w] o [c' w']. unfold on_snd, first_is. simpl.
  destruct (m w) as [o1 w1]. intros [= _ <- _]. auto.
Qed.

Lemma first_is_set_context_list x (f : list (option ChatMessage) -> list (option ChatMessage)) :
  (forall l, l !! 0%nat = Some x -> f l !! 0%nat = Some x) ->
  preserves (first_is x) (set_context_list (W := world) f).
Proof.
  intros Hf [c w] o [c' w']. unfold set_context_list, modify, first_is. simpl.
  intros [= _ <- _]. simpl. apply Hf.
Qed.

Lemma del_slice_first {A} (x : A) j l :
  l !! 0%nat = Some x -> PyList.del_slice 1 j l !! 0%nat = Some x.
Proof. destruct l; [discriminate |]. intros H. exact H. Qed.

Lemma del_from_first {A} (x : A) l :
  l !! 0%nat = Some x -> PyList.del_from 1 l !! 0%nat = Some x.
Proof. destruct l; [discriminate |]. intros H. exact H. Qed.

Lemma insert_first {A} (x y : A) l :
  l !! 0%nat = Some x -> PyList.insert 1 y l !! 0%nat = Some x.
Proof. destruct l; [discriminate |]. intros H. exact H. Qed.

Lemma append_first {A} (x y : A) l :
  l !! 0%nat = Some x -> PyList.append y l !! 0%nat = Some x.
Proof. destruct l; [discriminate |]. intros H. exact H. Qed.

Section Properties.

Variable encode : string -> list N.
Variable service : list request -> request -> http_response.
Variable API_KEY : string.

Lemma get_context_tokenlen_eq c (w : world) :
  get_context_tokenlen encode (c, w) =
  match messages_of (context_list c) with
  | Some ms => (Ret (PyList.sum (get_tokenlen encode <$> ms)), (c, w))
  | None => (Raise AttributeError, (c, w))
  end.
Proof.
  unfold get_context_tokenlen, bind, self_context. simpl.
  rewrite comprehension_method. destruct (messages_of (context_list c)); reflexivity.
Qed.

(** [get_response] is a method of the class: it leaves every object
    alone, so [summarize_context] keeps the context. *)
Lemma summarize_context_keeps fuel c w o c' w' :
  summarize_context encode service API_KEY fuel (c, w) = (o, (c', w')) -> c' = c.
Proof.
  unfold summarize_context, bind, self_context, on_snd. simpl.
  rewrite comprehension_method.
  destruct (messages_of _); simpl; [| intros [= _ <- _]; reflexivity].
  destruct (get_response _ _ _ _ _ _ _) as [o1 w1].
  intros [= _ <- _]. reflexivity.
Qed.

(** What one round of pruning does to the state, whatever the
    summarization call returned. *)
Lemma prune_context_Ret fuel c w r c1 w1 :
  summarize_context encode service API_KEY fuel (c, w) = (Ret r, (c1, w1)) ->
  prune_context encode service API_KEY fuel (c, w) =
  (Ret tt,
   (mkContext (take 1 (context_list c) ++ r :: drop 9 (context_list c))
              (summary_message c), w1)).
Proof.
  intros H. pose proof (summarize_context_keeps _ _ _ _ _ _ H) as ->.
  unfold prune_context. rewrite (bind_Ret _ _ _ _ _ H).
  unfold bind, set_context_list, modify, PyList.insert, PyList.del_slice. simpl.
  do 3 f_equal.
  destruct (context_list c) as [| p tl]; simpl; [reflexivity |].
  rewrite drop_0. reflexivity.
Qed.



(** *** The budget *)

(** When the loop of [get_prepared_context] is left, no entry of the
    context is [None] and the budget test has just failed. *)
Lemma get_prepared_context_while_Ret fuel prompt : forall c w c' w',
  get_prepared_context_while encode service API_KEY fuel prompt (c, w)
    = (Ret tt, (c', w')) ->
  exists ms,
    messages_of (context_list c') = Some ms /\
    PyList.sum (get_tokenlen encode <$> ms) + get_tokenlen encode prompt
      + MAX_TOKENS + get_tokenlen encode (summary_message c') <= API_TOKEN_LIMIT.
Proof.
  induction fuel as [| fuel IH]; intros c w c' w'; simpl; [discriminate |].
  unfold bind at 1. rewrite get_context_tokenlen_eq.
  destruct (messages_of (context_list c)) as [ms |] eqn:E; [| discriminate].
  unfold bind at 1, self_context at 1. simpl.
  destruct (API_TOKEN_LIMIT <? _) eqn:Hcmp.
  - intros H. apply bind_Ret_inv in H as ([] & [c1 w1] & _ & H).
    exact (IH _ _ _ _ H).
  - unfold ret. intros [= <- <-]. exists ms. split; [exact E |].
    apply Z.ltb_ge in Hcmp. exact Hcmp.
Qed.

(** What [get_prepared_context] returns and leaves behind when it
    returns. *)
Lemma get_prepared_context_Ret fuel prompt c w out c' w' :
  get_prepared_context encode service API_KEY fuel prompt (c, w)
    = (Ret out, (c', w')) ->
  exists c1 ms,
    get_prepared_context_while encode service API_KEY fuel prompt (c, w)
      = (Ret tt, (c1, w')) /\
    messages_of (context_list c1) = Some ms /\
    c' = mkContext (context_list c1 ++ [Some prompt]) (summary_message c1) /\
    out = to_dict <$> (ms ++ [prompt]).
Proof.
  unfold get_prepared_context. intros H.
  apply bind_Ret_inv in H as ([] & [c1 w1] & Hloop & H).
  destruct (get_prepared_context_while_Ret _ _ _ _ _ _ Hloop) as (ms & Hms & _).
  unfold bind, set_context_list, modify, self_context, PyList.append in H.
  simpl in H. rewrite comprehension_method, messages_of_app, Hms in H. simpl in H.
  injection H as <- <- <-. exists c1, ms. repeat split; assumption.
Qed.

(** C1.  After a call of [get_prepared_context] that returns, the
    context holds messages only, the last of them the prompt, and their
    token counts (the pinned message's and the tail's, as
    [get_context_tokenlen] adds them up) plus [MAX_TOKENS] plus the
    token count of the summary request are at most [API_TOKEN_LIMIT]. *)
Theorem budget_after_prepare fuel prompt c w out c' w' :
  get_prepared_context encode service API_KEY fuel prompt (c, w)
    = (Ret out, (c', w')) ->
  exists ms,
    context_list c' = Some <$> (ms ++ [prompt]) /\
    get_context_tokenlen encode (c', w')
      = (Ret (PyList.sum (get_tokenlen encode <$> (ms ++ [prompt]))), (c', w')) /\
    PyList.sum (get_tokenlen encode <$> (ms ++ [prompt])) + MAX_TOKENS
      + get_tokenlen encode (summary_message c') <= API_TOKEN_LIMIT.
Proof.
  intros H.
  destruct (get_prepared_context_Ret _ _ _ _ _ _ _ H) as (c1 & ms & Hloop & Hms & -> & _).
  destruct (get_prepared_context_while_Ret _ _ _ _ _ _ Hloop) as (ms' & Hms' & Hle).
  rewrite Hms in Hms'. injection Hms' as <-.
  apply messages_of_Some in Hms.
  exists ms. simpl. split; [| split].
  - rewrite Hms, fmap_app. reflexivity.
  - rewrite get_context_tokenlen_eq. simpl.
    rewrite messages_of_app. simpl.
    rewrite (proj2 (messages_of_Some _ ms) Hms). reflexivity.
  - rewrite fmap_app, sum_app. unfold PyList.sum at 2. simpl. lia.
Qed.

(** *** The projection *)

Lemma to_dict_inj m m' :
  to_dict m = to_dict m' <-> role m = role m' /\ content m = content m'.
Proof.
  unfold to_dict. split.
  - intros [= -> ->]. split; reflexivity.
  - intros [-> ->]. reflexivity.
Qed.

(** The loop of [get_prepared_context] stops at its first test when the
    context holds messages only and the budget is kept. *)
Lemma get_prepared_context_while_fits fuel prompt c w ms :
  context_list c = Some <$> ms ->
  PyList.sum (get_tokenlen encode <$> ms) + get_tokenlen encode prompt + MAX_TOKENS
    + get_tokenlen encode (summary_message c) <= API_TOKEN_LIMIT ->
  get_prepared_context_while encode service API_KEY (S fuel) prompt (c, w)
  = (Ret tt, (c, w)).
Proof.
  intros Hms Hfit. apply messages_of_Some in Hms. simpl.
  unfold bind at 1. rewrite get_context_tokenlen_eq, Hms.
  unfold bind at 1, self_context at 1. cbn [fst snd].
  rewrite (proj2 (Z.ltb_ge _ _) Hfit). reflexivity.
Qed.

(** C9.  A call of [get_prepared_context] that returns has appended the
    prompt to the context list that its pruning loop left: the new list
    is that list followed by the prompt, and it is the old list followed
    by the prompt when the budget test passes at once.  The call returns
    the projections of the entries of the new list, in their order.  The
    projection of a message is a dict of its role and its content and of
    nothing else, so two messages have the same projection exactly when
    they have the same role and the same content. *)
Theorem prepare_appends_and_projects fuel prompt c w out c' w' :
  get_prepared_context encode service API_KEY fuel prompt (c, w)
    = (Ret out, (c', w')) ->
  (exists c1 ms,
     get_prepared_context_while encode service API_KEY fuel prompt (c, w)
       = (Ret tt, (c1, w')) /\
     context_list c1 = Some <$> ms /\
     c' = mkContext (context_list c1 ++ [Some prompt]) (summary_message c1) /\
     out = to_dict <$> (ms ++ [prompt])) /\
  (forall ms0,
     context_list c = Some <$> ms0 ->
     PyList.sum (get_tokenlen encode <$> ms0) + get_tokenlen encode prompt + MAX_TOKENS
       + get_tokenlen encode (summary_message c) <= API_TOKEN_LIMIT ->
     c' = mkContext (context_list c ++ [Some prompt]) (summary_message c) /\
     w' = w /\
     out = to_dict <$> (ms0 ++ [prompt])) /\
  (forall m : ChatMessage,
     keys (to_dict m) = ["role"; "content"] /\
     to_dict m = JDict [("role", JStr (role m)); ("content", JStr (content m))]) /\
  (forall m m' : ChatMessage,
     to_dict m = to_dict m' <-> role m = role m' /\ content m = content m').
Proof.
  intros H.
  destruct (get_prepared_context_Ret _ _ _ _ _ _ _ H) as (c1 & ms & Hloop & Hms & -> & ->).
  apply messages_of_Some in Hms. split; [| split; [| split]].
  - exists c1, ms. repeat split; assumption.
  - intros ms0 Hms0 Hfit.
    destruct fuel as [| fuel]; [discriminate |].
    rewrite (get_prepared_context_while_fits fuel prompt c w ms0 Hms0 Hfit) in Hloop.
    injection Hloop as <- <-. rewrite Hms0 in Hms.
    apply (inj (fmap Some)) in Hms as ->. repeat split.
  - intros m. repeat split.
  - apply to_dict_inj.
Qed.

(** *** Reset *)

(** C6.  [reset_context] after [reset_context] changes nothing more;
    after it the context list is the pinned message alone, so the tail
    is empty, and [get_context_tokenlen] is the token count of the
    pinned message. *)
Theorem reset_context_idempotent c (w : world) :
  exists c1,
    reset_context (c, w) = (Ret tt, (c1, w)) /\
    reset_context (c1, w) = (Ret tt, (c1, w)) /\
    summary_message c1 = summary_message c /\
    forall pinned tail,
      context_list c = Some pinned :: tail ->
      context_list c1 = [Some pinned] /\
      get_context_tokenlen encode (c1, w)
        = (Ret (get_tokenlen encode pinned), (c1, w)).
Proof.
  exists (mkContext (take 1 (context_list c)) (summary_message c)).
  unfold reset_context, set_context_list, modify, PyList.del_from. simpl.
  split; [reflexivity |]. split; [| split; [reflexivity |]].
  - rewrite take_take. reflexivity.
  - intros pinned tail Hc. rewrite Hc. simpl. split; [reflexivity |].
    rewrite get_context_tokenlen_eq. simpl. unfold PyList.sum. simpl.
    do 2 f_equal. lia.
Qed.

(** *** One round of pruning *)

(** C4, as the code has it.  When the summarization call returns a
    message, one round of [prune_context] removes the first
    [min 8 (length tail)] entries of the tail, puts the summary in front of
    what is left and changes nothing else.  A tail of two entries or
    more gets shorter; a tail of one entry keeps its length; an empty
    tail becomes the summary alone. *)
Theorem prune_context_round fuel c w pinned tail summary c1 w1 :
  context_list c = pinned :: tail ->
  summarize_context encode service API_KEY fuel (c, w)
    = (Ret (Some summary), (c1, w1)) ->
  let tail' := Some summary :: drop (8 `min` length tail) tail in
  prune_context encode service API_KEY fuel (c, w)
    = (Ret tt, (mkContext (pinned :: tail') (summary_message c), w1)) /\
  (length tail' = 1 + (length tail - 8 `min` length tail))%nat /\
  (2 <= length tail -> length tail' < length tail)%nat /\
  (length tail = 1%nat -> length tail' = 1%nat) /\
  (tail = [] -> tail' = [Some summary]).
Proof.
  intros Hc Hsum tail'.
  assert (Hdrop : drop (8 `min` length tail) tail = drop 8 tail).
  { destruct (Nat.le_ge_cases 8 (length tail)) as [Hle | Hge].
    - rewrite Nat.min_l by exact Hle. reflexivity.
    - rewrite Nat.min_r by exact Hge.
      rewrite !drop_ge by lia. reflexivity. }
  assert (Hlen : length tail' = (1 + (length tail - 8 `min` length tail))%nat).
  { unfold tail'. simpl. rewrite length_drop. reflexivity. }
  split; [| split; [exact Hlen | split; [| split]]].
  - rewrite (prune_context_Ret _ _ _ _ _ _ Hsum), Hc. unfold tail'.
    rewrite Hdrop. reflexivity.
  - intros H2. rewrite Hlen. lia.
  - intros H1. rewrite Hlen, H1. reflexivity.
  - intros ->. reflexivity.
Qed.

(** C2, as the code has it.  When the summarization call reports a
    failure, that is when [get_response] returns [None],
    [prune_context] returns all the same: it removes the entries 1 to 8
    of the context list and puts [None] in their place. *)
Theorem prune_context_failure fuel c w c1 w1 :
  summarize_context encode service API_KEY fuel (c, w) = (Ret None, (c1, w1)) ->
  prune_context encode service API_KEY fuel (c, w)
    = (Ret tt,
       (mkContext (take 1 (context_list c) ++ None :: drop 9 (context_list c))
                  (summary_message c), w1)).
Proof. apply prune_context_Ret. Qed.

(** *** A turn of the chat *)

(** C3, as the code has it.  When the context was prepared and the
    completion call reports a failure, that is when [get_response]
    returns [None], [submit_prompt] returns [None] and has appended the
    prompt and [None] to [history]. *)
Theorem submit_prompt_failure fuel prompt m w json_context c1 w1 w2 :
  get_prepared_context encode service API_KEY fuel prompt (context m, w)
    = (Ret json_context, (c1, w1)) ->
  get_response encode service API_KEY fuel (JList json_context) (Some "assistant") w1
    = (Ret None, w2) ->
  submit_prompt encode service API_KEY fuel prompt (m, w)
    = (Ret None, (mkChatManager c1 (history m ++ [Some prompt; None]), w2)).
Proof.
  intros Hprep Hresp.
  unfold submit_prompt, bind, on_context, on_snd. simpl.
  rewrite Hprep. simpl. rewrite Hresp.
  unfold update_history, bind, set_history, modify, PyList.append. simpl.
  rewrite <- app_assoc. reflexivity.
Qed.

(** *** The pinned message *)

Lemma first_is_self_context x : preserves (first_is x) (self_context (W := world)).
Proof. apply preserves_frame. reflexivity. Qed.

Lemma first_is_comprehension {A} x (f : ChatMessage -> A) l :
  preserves (first_is x) (comprehension (S := Context * world) (method f) l).
Proof. apply preserves_frame. intros s. apply comprehension_method_frame. Qed.

Lemma first_is_ret {A} x (a : A) : preserves (first_is x) (ret (S := Context * world) a).
Proof. apply preserves_frame. reflexivity. Qed.

Lemma first_is_diverge {A} x : preserves (first_is x) (diverge (S := Context * world) (A := A)).
Proof. apply preserves_frame. reflexivity. Qed.

Lemma first_is_get_context_tokenlen x :
  preserves (first_is x) (get_context_tokenlen encode).
Proof.
  apply preserves_frame. intros [c w]. rewrite get_context_tokenlen_eq.
  destruct (messages_of _); reflexivity.
Qed.

Lemma first_is_summarize_context x fuel :
  preserves (first_is x) (summarize_context encode service API_KEY fuel).
Proof.
  unfold summarize_context.
  apply preserves_bind; [apply first_is_self_context | intros self].
  apply preserves_bind; [apply first_is_comprehension | intros dicts].
  apply first_is_on_snd.
Qed.

Lemma first_is_prune_context x fuel :
  preserves (first_is x) (prune_context encode service API_KEY fuel).
Proof.
  unfold prune_context.
  apply preserves_bind; [apply first_is_summarize_context | intros r].
  apply preserves_bind; [| intros _];
    apply first_is_set_context_list; intros l.
  - apply del_slice_first.
  - apply insert_first.
Qed.

Lemma first_is_reset_context x : preserves (first_is x) reset_context.
Proof. apply first_is_set_context_list. intros l. apply del_from_first. Qed.

Lemma first_is_get_prepared_context_while x prompt fuel :
  preserves (first_is x)
    (get_prepared_context_while encode service API_KEY fuel prompt).
Proof.
  induction fuel as [| fuel IH]; simpl; [apply first_is_diverge |].
  apply preserves_bind; [apply first_is_get_context_tokenlen | intros total].
  apply preserves_bind; [apply first_is_self_context | intros self].
  destruct (API_TOKEN_LIMIT <? _); [| apply first_is_ret].
  apply preserves_bind; [apply first_is_prune_context | intros _; exact IH].
Qed.

Lemma first_is_get_prepared_context x prompt fuel :
  preserves (first_is x) (get_prepared_context encode service API_KEY fuel prompt).
Proof.
  unfold get_prepared_context.
  apply preserves_bind; [apply first_is_get_prepared_context_while | intros _].
  apply preserves_bind; [| intros _].
  - apply first_is_set_context_list. intros l. apply append_first.
  - apply preserves_bind; [apply first_is_self_context | intros self].
    apply first_is_comprehension.
Qed.

Lemma first_is_run_context_call x fuel call :
  preserves (first_is x) (run_context_call encode service API_KEY fuel call).
Proof.
  destruct call as [prompt | |]; simpl.
  - apply preserves_bind; [apply first_is_get_prepared_context | intros _].
    apply first_is_ret.
  - apply first_is_prune_context.
  - apply first_is_reset_context.
Qed.

Lemma first_is_run_context_calls x fuel calls : forall s,
  first_is x s -> first_is x (run_context_calls encode service API_KEY fuel calls s).
Proof.
  induction calls as [| call calls IH]; intros s Hs; simpl; [exact Hs |].
  destruct (run_context_call _ _ _ _ _ s) as [o s'] eqn:E.
  pose proof (first_is_run_context_call x fuel call _ _ _ E Hs) as Hs'.
  destruct o; auto.
Qed.

(** C5.  A context created for a personality starts as the pinned
    message alone, of role system and of the personality's prompt, and
    after every sequence of calls of [get_prepared_context],
    [prune_context] and [reset_context], however each of them ends, the
    first entry of the context list is that same message. *)
Theorem pinned_message_stays personality w fuel calls :
  exists pinned c0 w0,
    Context_init encode personality w = (Ret c0, w0) /\
    context_list c0 = [Some pinned] /\
    role pinned = "system" /\
    content pinned = system_prompt personality /\
    context_list (fst (run_context_calls encode service API_KEY fuel calls (c0, w0)))
      !! 0%nat = Some (Some pinned).
Proof.
  eexists _, _, _. split; [reflexivity |].
  split; [reflexivity |]. split; [reflexivity |]. split; [reflexivity |].
  apply (first_is_run_context_calls _ fuel calls). reflexivity.
Qed.

(** *** The completion client *)

Local Abbreviation request_of := (request_of API_KEY).

(** A well-shaped body goes through the subscripts and [strip()]. *)
Lemma completion_text_chain {A} b text (k : string -> M world A) (w : world) :
  completion_text b = Some text ->
  (let* choices := getitem_key b "choices" in
   let* choice := getitem_0 choices in
   let* message := getitem_key choice "message" in
   let* t := getitem_key message "content" in
   let* completion := strip_method t in
   k completion) w = k (PyStr.strip text) w.
Proof.
  unfold completion_text. intros H.
  destruct b as [| | | | | d]; try discriminate.
  unfold bind at 1. simpl.
  destruct (dict_get d "choices") as [[| | | | [| [| | | | | choice] rest] |] |];
    try discriminate.
  simpl. unfold bind at 1. simpl. unfold bind at 1. simpl.
  destruct (dict_get choice "message") as [[| | | | | message] |]; try discriminate.
  simpl. unfold bind at 1. simpl.
  destruct (dict_get message "content") as [[| | | t | |] |]; try discriminate.
  injection H as ->. reflexivity.
Qed.

(** An answer of status 200 and of well-shaped body ends the loop. *)
Lemma get_response_200 fuel message_list role_arg w b text :
  status_code (service (posted w) (request_of message_list)) = 200 ->
  body (service (posted w) (request_of message_list)) = Some b ->
  completion_text b = Some text ->
  get_response encode service API_KEY (S fuel) message_list role_arg w
    = (Ret (Some (mkChatMessage (default "user" role_arg) (PyStr.strip text) (clock w)
                    (get_tokenlen encode
                       (mkChatMessage (default "user" role_arg) (PyStr.strip text)
                          (clock w) 0)))),
       World (posted w ++ [request_of message_list]) (clock w)).
Proof.
  intros Hstatus Hbody Htext. simpl.
  unfold bind at 1, requests_post at 1.
  change (Request API_URL (request_headers API_KEY) (request_data message_list))
    with (request_of message_list).
  rewrite Hstatus. simpl.
  unfold bind at 1, response_json at 1. rewrite Hbody. simpl.
  rewrite (completion_text_chain b text _ _ Htext). reflexivity.
Qed.

(** An answer of status 429 costs a second and a turn of the loop. *)
Lemma get_response_429 fuel message_list role_arg w :
  status_code (service (posted w) (request_of message_list)) = 429 ->
  get_response encode service API_KEY (S fuel) message_list role_arg w
    = get_response encode service API_KEY fuel message_list role_arg
        (World (posted w ++ [request_of message_list]) (clock w + 1)).
Proof.
  intros Hstatus. simpl.
  unfold bind at 1, requests_post at 1.
  change (Request API_URL (request_headers API_KEY) (request_data message_list))
    with (request_of message_list).
  rewrite Hstatus. simpl. reflexivity.
Qed.

(** C10.  When the service answers a request with status 200 and a
    completion text, after any number [n] of rate-limited attempts,
    [get_response] returns a message whose role is the caller's, and
    [user] when the caller gave none, and whose content is the text
    without its leading and trailing whitespace. *)
Theorem get_response_success fuel n message_list role_arg w b text :
  (forall i, (i < n)%nat ->
     status_code (service (posted w ++ replicate i (request_of message_list))
                          (request_of message_list)) = 429) ->
  status_code (service (posted w ++ replicate n (request_of message_list))
                       (request_of message_list)) = 200 ->
  body (service (posted w ++ replicate n (request_of message_list))
                (request_of message_list)) = Some b ->
  completion_text b = Some text ->
  (n < fuel)%nat ->
  exists m,
    get_response encode service API_KEY fuel message_list role_arg w
      = (Ret (Some m),
         World (posted w ++ replicate (S n) (request_of message_list))
               (clock w + Z.of_nat n)) /\
    role m = default "user" role_arg /\
    content m = PyStr.strip text /\
    creation_time m = clock w + Z.of_nat n /\
    tokenlen m = get_tokenlen encode m.
Proof.
  revert fuel w. induction n as [| n IH]; intros fuel w H429 H200 Hbody Htext Hfuel.
  - destruct fuel as [| fuel]; [lia |].
    simpl in H200, Hbody. rewrite app_nil_r in H200, Hbody.
    rewrite (get_response_200 _ _ _ _ _ _ H200 Hbody Htext).
    eexists. split.
    + simpl. rewrite Z.add_0_r. reflexivity.
    + simpl. repeat split. lia.
  - destruct fuel as [| fuel]; [lia |].
    rewrite get_response_429.
    2:{ specialize (H429 0%nat ltac:(lia)). simpl in H429.
        rewrite app_nil_r in H429. exact H429. }
    set (w1 := World (posted w ++ [request_of message_list]) (clock w + 1)).
    assert (Hshift : forall k,
              posted w1 ++ replicate k (request_of message_list)
              = posted w ++ replicate (S k) (request_of message_list)).
    { intros k. unfold w1. simpl. rewrite <- app_assoc. reflexivity. }
    destruct (IH fuel w1) as (m & Hrun & Hrole & Hcontent & Htime & Htok).
    + intros i Hi. rewrite Hshift. apply H429. lia.
    + rewrite Hshift. exact H200.
    + rewrite Hshift. exact Hbody.
    + exact Htext.
    + lia.
    + exists m. rewrite Hrun, Hshift. unfold w1. simpl.
      replace (clock w + 1 + Z.of_nat n) with (clock w + Z.of_nat (S n)) by lia.
      repeat split; try assumption. rewrite Htime. unfold w1. simpl. lia.
Qed.

(** *** The history and the context *)

(** What [submit_prompt] leaves behind when it returns. *)
Lemma submit_prompt_Ret fuel prompt m w r m' w' :
  submit_prompt encode service API_KEY fuel prompt (m, w) = (Ret r, (m', w')) ->
  exists json_context c1 w1,
    get_prepared_context encode service API_KEY fuel prompt (context m, w)
      = (Ret json_context, (c1, w1)) /\
    m' = mkChatManager c1 (history m ++ [Some prompt; r]).
Proof.
  unfold submit_prompt, bind at 1, on_context. simpl.
  destruct (get_prepared_context _ _ _ _ _ _) as [[json_context | e |] [c1 w1]];
    try discriminate.
  unfold bind at 1, on_snd. simpl.
  destruct (get_response _ _ _ _ _ _ _) as [[r1 | e |] w2]; try discriminate.
  unfold update_history, bind, set_history, modify, PyList.append. simpl.
  intros [= <- <- _]. exists json_context, c1, w1. split; [reflexivity |].
  rewrite <- app_assoc. reflexivity.
Qed.


(** *** A failed summary inside a turn *)

Lemma messages_of_None l : None ∈ l -> messages_of l = None.
Proof.
  induction l as [| [m |] l IH]; intros H.
  - inversion H.
  - apply elem_of_cons in H as [H | H]; [discriminate |].
    simpl. rewrite (IH H). reflexivity.
  - reflexivity.
Qed.

(** When the budget test asks for a round of pruning and the
    summarization call returns [None], the [None] that [prune_context]
    inserts makes the next budget test raise: [submit_prompt] ends with
    [AttributeError], [history] as it was and [None] in the context. *)
Lemma submit_prompt_summary_failure fuel prompt m w ms c1 w1 :
  messages_of (context_list (context m)) = Some ms ->
  API_TOKEN_LIMIT < PyList.sum (get_tokenlen encode <$> ms) + get_tokenlen encode prompt
                      + MAX_TOKENS + get_tokenlen encode (summary_message (context m)) ->
  summarize_context encode service API_KEY (S fuel) (context m, w)
    = (Ret None, (c1, w1)) ->
  submit_prompt encode service API_KEY (S (S fuel)) prompt (m, w)
    = (Raise AttributeError,
       (mkChatManager
          (mkContext (take 1 (context_list (context m)) ++
                      None :: drop 9 (context_list (context m)))
                     (summary_message (context m)))
          (history m), w1)).
Proof.
  intros Hms Hover Hsum.
  unfold submit_prompt, bind at 1, on_context. simpl fst. simpl snd.
  unfold get_prepared_context, bind at 1.
  change (get_prepared_context_while encode service API_KEY (S (S fuel)) prompt)
    with (let* total := get_context_tokenlen encode in
          let* self := self_context in
          if API_TOKEN_LIMIT <? total + get_tokenlen encode prompt + MAX_TOKENS
                                 + get_tokenlen encode (summary_message self)
          then
            let* _ := prune_context encode service API_KEY (S fuel) in
            get_prepared_context_while encode service API_KEY (S fuel) prompt
          else ret tt).
  unfold bind at 1. rewrite get_context_tokenlen_eq, Hms.
  unfold bind at 1, self_context at 1. cbn [fst snd].
  rewrite (proj2 (Z.ltb_lt _ _) Hover).
  unfold bind at 1. rewrite (prune_context_Ret _ _ _ _ _ _ Hsum).
  simpl get_prepared_context_while.
  unfold bind at 1. rewrite get_context_tokenlen_eq. simpl context_list.
  rewrite messages_of_None; [reflexivity |].
  apply elem_of_app. right. apply elem_of_cons. left. reflexivity.
Qed.

(** [summarize_context] hands [get_response] the text that [json.dumps]
    makes of the snapshot. *)
Lemma summarize_context_eq fuel c w ms :
  messages_of (context_list c) = Some ms ->
  summarize_context encode service API_KEY fuel (c, w)
  = on_snd (get_response encode service API_KEY fuel
              (JStr (json_dumps (JList (to_dict <$> (ms ++ [summary_message c])))))
              None) (c, w).
Proof.
  intros Hms. unfold summarize_context, bind, self_context, PyList.append. simpl.
  rewrite comprehension_method, messages_of_app, Hms. reflexivity.
Qed.

End Properties.

(** ** The statements on the fixtures *)

Import Fixture.

(** C7.  For the context of one turn, the [messages] entry of the request
    that [summarize_context] posts is a [str], the text that [json.dumps]
    makes of the snapshot of pinned message, tail and summary request.  It
    is no list, whereas the [messages] entry that [submit_prompt] posts
    for its own call is the list of the projections. *)
Theorem summarize_context_posts_a_string :
  let snapshot := [pinned0; hello; summary0] in
  sent_messages <$>
    posted (snd (snd (summarize_context char_encode (ok_service " so far ") api_key 1
                        (context_hello, world0))))
    = [Some (JStr (json_dumps (JList (to_dict <$> snapshot))))] /\
  (forall l, JStr (json_dumps (JList (to_dict <$> snapshot))) <> JList l) /\
  sent_messages <$>
    posted (snd (snd (submit_prompt char_encode (ok_service " so far ") api_key 1 hello
                        (manager0, world0))))
    = [Some (JList (to_dict <$> [pinned0; hello]))].
Proof.
  intros snapshot. split; [| split].
  - rewrite (summarize_context_eq char_encode _ _ 1 context_hello world0 [pinned0; hello]
               eq_refl).
    reflexivity.
  - intros l. discriminate.
  - reflexivity.
Qed.

(** C2 as stated fails.  The service is down, the summarization call
    returns [None], and [prune_context] returns normally with a context
    list in which [None] stands where the turn was. *)
Lemma prune_context_failure_counterexample :
  let w1 := World [summary_request [pinned0; hello; summary0]] 0 in
  summarize_context char_encode down_service api_key 5 (context_hello, world0)
    = (Ret None, (context_hello, w1)) /\
  prune_context char_encode down_service api_key 5 (context_hello, world0)
    = (Ret tt, (mkContext [Some pinned0; None] summary0, w1)) /\
  [Some pinned0; None] <> context_list context_hello.
Proof.
  intros w1. split; [| split].
  - vm_compute. reflexivity.
  - vm_compute. reflexivity.
  - discriminate.
Qed.

(** C3 as stated fails.  The service is down, [submit_prompt] returns
    [None], and [history] has grown by the prompt and by [None]. *)
Lemma submit_prompt_failure_counterexample :
  let w1 := World [chat_request [pinned0; hello]] 0 in
  submit_prompt char_encode down_service api_key 5 hello (manager0, world0)
    = (Ret None,
       (mkChatManager context_hello [Some pinned0; Some hello; None], w1)) /\
  [Some pinned0; Some hello; None] <> history manager0.
Proof.
  intros w1. split.
  - vm_compute. reflexivity.
  - discriminate.
Qed.

(** C4 as stated fails.  On an empty tail a round of pruning whose
    summarization call succeeds is not a no-op: the tail becomes the
    summary. *)
Lemma prune_context_round_counterexample :
  let w1 := World [summary_request [pinned0; summary0]] 0 in
  context_list context0 = [Some pinned0] /\
  summarize_context char_encode (ok_service " so far ") api_key 5 (context0, world0)
    = (Ret (Some so_far), (context0, w1)) /\
  prune_context char_encode (ok_service " so far ") api_key 5 (context0, world0)
    = (Ret tt, (mkContext [Some pinned0; Some so_far] summary0, w1)) /\
  mkContext [Some pinned0; Some so_far] summary0 <> context0.
Proof.
  intros w1. split; [reflexivity |]. split; [| split].
  - vm_compute. reflexivity.
  - vm_compute. reflexivity.
  - discriminate.
Qed.


(** ** The theorems at work on the fixtures *)

(** The second long prompt makes [get_prepared_context] prune once. *)
Lemma prepare_long2 :
  get_prepared_context char_encode (ok_service " so far ") api_key 5 long2
    (context1, world0)
  = (Ret (to_dict <$> [pinned0; so_far; long2]),
     (context2, World [summary_request [pinned0; long1; summary0]] 0)).
Proof. vm_compute. reflexivity. Defined.

Lemma budget_after_prepare_witness :
  get_prepared_context char_encode (ok_service " so far ") api_key 5 long2
    (context1, world0)
  = (Ret (to_dict <$> [pinned0; so_far; long2]),
     (context2, World [summary_request [pinned0; long1; summary0]] 0)) /\
  exists ms,
    context_list context2 = Some <$> (ms ++ [long2]) /\
    get_context_tokenlen char_encode
      (context2, World [summary_request [pinned0; long1; summary0]] 0)
      = (Ret (PyList.sum (get_tokenlen char_encode <$> (ms ++ [long2]))),
         (context2, World [summary_request [pinned0; long1; summary0]] 0)) /\
    PyList.sum (get_tokenlen char_encode <$> (ms ++ [long2])) + MAX_TOKENS
      + get_tokenlen char_encode (summary_message context2) <= API_TOKEN_LIMIT.
Proof.
  split; [exact prepare_long2 |].
  exact (budget_after_prepare char_encode (ok_service " so far ") api_key 5 long2
           context1 world0 _ context2 _ prepare_long2).
Defined.

Lemma prepare_appends_and_projects_witness :
  (get_prepared_context char_encode (ok_service " so far ") api_key 5 long2
     (context1, world0)
   = (Ret (to_dict <$> [pinned0; so_far; long2]),
      (context2, World [summary_request [pinned0; long1; summary0]] 0)) /\
   exists c1 ms,
     get_prepared_context_while char_encode (ok_service " so far ") api_key 5 long2
       (context1, world0)
     = (Ret tt, (c1, World [summary_request [pinned0; long1; summary0]] 0)) /\
     context_list c1 = Some <$> ms /\
     context2 = mkContext (context_list c1 ++ [Some long2]) (summary_message c1) /\
     to_dict <$> [pinned0; so_far; long2] = to_dict <$> (ms ++ [long2])) /\
  (get_prepared_context char_encode (ok_service " so far ") api_key 5 hello
     (context0, world0)
   = (Ret (to_dict <$> [pinned0; hello]), (context_hello, world0)) /\
   context_hello = mkContext (context_list context0 ++ [Some hello])
                     (summary_message context0)).
Proof.
  split.
  - split; [exact prepare_long2 |].
    exact (proj1 (prepare_appends_and_projects char_encode (ok_service " so far ")
                    api_key 5 long2 context1 world0 _ context2 _ prepare_long2)).
  - assert (Hrun : get_prepared_context char_encode (ok_service " so far ") api_key 5
                     hello (context0, world0)
                   = (Ret (to_dict <$> [pinned0; hello]), (context_hello, world0))).
    { vm_compute. reflexivity. }
    split; [exact Hrun |].
    exact (proj1 (proj1 (proj2 (prepare_appends_and_projects char_encode
                                  (ok_service " so far ") api_key 5 hello context0
                                  world0 _ context_hello _ Hrun))
                    [pinned0] eq_refl ltac:(vm_compute; discriminate))).
Defined.

Lemma reset_context_idempotent_witness :
  context_list context2 = Some pinned0 :: [Some so_far; Some long2] /\
  exists c1,
    reset_context (context2, world0) = (Ret tt, (c1, world0)) /\
    reset_context (c1, world0) = (Ret tt, (c1, world0)) /\
    context_list c1 = [Some pinned0] /\
    get_context_tokenlen char_encode (c1, world0)
      = (Ret (get_tokenlen char_encode pinned0), (c1, world0)).
Proof.
  split; [reflexivity |].
  destruct (reset_context_idempotent char_encode context2 world0)
    as (c1 & H1 & H2 & _ & H3).
  destruct (H3 pinned0 [Some so_far; Some long2] eq_refl) as [H4 H5].
  exists c1. repeat split; assumption.
Defined.

Lemma prune_context_round_witness :
  let w1 := World [summary_request [pinned0; hello; hello; summary0]] 0 in
  context_list context_pair = Some pinned0 :: [Some hello; Some hello] /\
  summarize_context char_encode (ok_service " so far ") api_key 5 (context_pair, world0)
    = (Ret (Some so_far), (context_pair, w1)) /\
  prune_context char_encode (ok_service " so far ") api_key 5 (context_pair, world0)
    = (Ret tt, (mkContext [Some pinned0; Some so_far] summary0, w1)) /\
  (length [Some so_far] < length [Some hello; Some hello])%nat.
Proof.
  intros w1.
  assert (Hsum : summarize_context char_encode (ok_service " so far ") api_key 5
                   (context_pair, world0) = (Ret (Some so_far), (context_pair, w1))).
  { vm_compute. reflexivity. }
  split; [reflexivity |]. split; [exact Hsum |].
  destruct (prune_context_round char_encode (ok_service " so far ") api_key 5
              context_pair world0 (Some pinned0) [Some hello; Some hello] so_far
              context_pair w1 eq_refl Hsum) as (Hrun & _ & Hlt & _).
  split; [exact Hrun |]. apply Hlt. simpl. lia.
Defined.

Lemma prune_context_failure_witness :
  let w1 := World [summary_request [pinned0; hello; summary0]] 0 in
  summarize_context char_encode down_service api_key 5 (context_hello, world0)
    = (Ret None, (context_hello, w1)) /\
  prune_context char_encode down_service api_key 5 (context_hello, world0)
    = (Ret tt, (mkContext [Some pinned0; None] summary0, w1)).
Proof.
  intros w1.
  assert (Hsum : summarize_context char_encode down_service api_key 5
                   (context_hello, world0) = (Ret None, (context_hello, w1))).
  { vm_compute. reflexivity. }
  split; [exact Hsum |].
  exact (prune_context_failure char_encode down_service api_key 5 context_hello world0
           context_hello w1 Hsum).
Defined.

Lemma submit_prompt_failure_witness :
  let w1 := World [chat_request [pinned0; hello]] 0 in
  get_prepared_context char_encode down_service api_key 5 hello (context manager0, world0)
    = (Ret (to_dict <$> [pinned0; hello]), (context_hello, world0)) /\
  get_response char_encode down_service api_key 5 (JList (to_dict <$> [pinned0; hello]))
    (Some "assistant") world0 = (Ret None, w1) /\
  submit_prompt char_encode down_service api_key 5 hello (manager0, world0)
    = (Ret None,
       (mkChatManager context_hello (history manager0 ++ [Some hello; None]), w1)).
Proof.
  intros w1.
  assert (Hprep : get_prepared_context char_encode down_service api_key 5 hello
                    (context manager0, world0)
                  = (Ret (to_dict <$> [pinned0; hello]), (context_hello, world0))).
  { vm_compute. reflexivity. }
  assert (Hresp : get_response char_encode down_service api_key 5
                    (JList (to_dict <$> [pinned0; hello])) (Some "assistant") world0
                  = (Ret None, w1)).
  { vm_compute. reflexivity. }
  split; [exact Hprep |]. split; [exact Hresp |].
  exact (submit_prompt_failure char_encode down_service api_key 5 hello manager0 world0
           _ context_hello world0 w1 Hprep Hresp).
Defined.

Lemma get_response_success_witness :
  let message_list := JList (to_dict <$> [pinned0; hello]) in
  exists m,
    get_response char_encode (busy_service 2 " so far ") api_key 5 message_list
      (Some "assistant") world0
    = (Ret (Some m), World (replicate 3 (request_of api_key message_list)) 2) /\
    role m = "assistant" /\
    content m = "so far".
Proof.
  intros message_list.
  destruct (get_response_success char_encode (busy_service 2 " so far ") api_key 5 2
              message_list (Some "assistant") world0
              (completion_body " so far ") " so far ")
    as (m & Hrun & Hrole & Hcontent & _).
  - intros i Hi. destruct i as [| [| i]]; [reflexivity | reflexivity | lia].
  - reflexivity.
  - reflexivity.
  - reflexivity.
  - lia.
  - exists m. split; [exact Hrun |]. split; [exact Hrole |]. exact Hcontent.
Defined.

(** ** Further behaviour of the completion client and of the context *)

Section Behaviour.

Variable encode : string -> list N.
Variable service : list request -> request -> http_response.
Variable API_KEY : string.

Local Abbreviation request_of := (request_of API_KEY).

(** X1.  An answer whose status is neither 200 nor 429 is not retried:
    [get_response] posts once and returns [None]; when the body of that
    answer is not JSON, the [response.json()] of the diagnostic print
    raises instead. *)
Theorem get_response_error_status fuel message_list role_arg w :
  status_code (service (posted w) (request_of message_list)) <> 200 ->
  status_code (service (posted w) (request_of message_list)) <> 429 ->
  get_response encode service API_KEY (S fuel) message_list role_arg w
  = (match body (service (posted w) (request_of message_list)) with
     | Some _ => Ret None
     | None => Raise JSONDecodeError
     end,
     World (posted w ++ [request_of message_list]) (clock w)).
Proof.
  intros H200 H429. simpl.
  unfold bind at 1, requests_post at 1.
  change (Request API_URL (request_headers API_KEY) (request_data message_list))
    with (request_of message_list).
  rewrite (proj2 (Z.eqb_neq _ _) H200), (proj2 (Z.eqb_neq _ _) H429).
  unfold bind, response_json.
  destruct (body _); reflexivity.
Qed.

(** X2.  An answer of status 200 ends the loop whatever its body: the
    request is posted once, and the call returns the message made of
    the completion text, or raises when the body is not JSON or has not
    the expected shape.  It never returns [None] and never retries. *)
Theorem get_response_200_once fuel message_list role_arg w :
  status_code (service (posted w) (request_of message_list)) = 200 ->
  exists o,
    get_response encode service API_KEY (S fuel) message_list role_arg w
      = (o, World (posted w ++ [request_of message_list]) (clock w)) /\
    match body (service (posted w) (request_of message_list)) with
    | None => o = Raise JSONDecodeError
    | Some b =>
        match completion_text b with
        | Some text =>
            exists m, o = Ret (Some m) /\
                      role m = default "user" role_arg /\
                      content m = PyStr.strip text
        | None => exists e, o = Raise e
        end
    end.
Proof.
  intros H200.
  destruct (body (service (posted w) (request_of message_list))) as [b |] eqn:Hbody.
  - destruct (completion_text b) as [text |] eqn:Htext.
    + rewrite (get_response_200 _ _ _ _ _ _ _ _ _ H200 Hbody Htext).
      eexists. split; [reflexivity |]. eexists. split; [reflexivity |].
      split; reflexivity.
    + simpl. unfold bind at 1, requests_post at 1.
      change (Request API_URL (request_headers API_KEY) (request_data message_list))
        with (request_of message_list).
      rewrite H200. simpl. unfold bind at 1, response_json at 1. rewrite Hbody. simpl.
      unfold completion_text in Htext.
      unfold bind, getitem_key, getitem_0, strip_method, ret, raise.
      repeat case_match; simplify_eq; eexists; (split; [reflexivity | eauto]).
  - simpl. unfold bind at 1, requests_post at 1.
    change (Request API_URL (request_headers API_KEY) (request_data message_list))
      with (request_of message_list).
    rewrite H200. simpl. unfold bind at 1, response_json at 1. rewrite Hbody.
    eexists. split; reflexivity.
Qed.

(** X3.  While the service answers 429, [get_response] goes on: against
    a service that always does, every amount of fuel runs out, with one
    request posted and one second slept per turn of the loop. *)
Theorem get_response_rate_limited_forever message_list role_arg :
  (forall earlier, status_code (service earlier (request_of message_list)) = 429) ->
  forall fuel w,
    get_response encode service API_KEY fuel message_list role_arg w
    = (Diverge,
       World (posted w ++ replicate fuel (request_of message_list))
             (clock w + Z.of_nat fuel)).
Proof.
  intros H429. induction fuel as [| fuel IH]; intros w.
  - simpl. unfold diverge. rewrite app_nil_r, Z.add_0_r. destruct w; reflexivity.
  - rewrite get_response_429 by apply H429. rewrite IH. simpl.
    rewrite <- app_assoc. do 2 f_equal. lia.
Qed.

(** *** The budget test at the two ends *)

Lemma sum_tokenlen_nonneg ms : 0 <= PyList.sum (get_tokenlen encode <$> ms).
Proof.
  induction ms as [| m ms IH]; [reflexivity |].
  rewrite fmap_cons.
  change (0 <= get_tokenlen encode m + PyList.sum (get_tokenlen encode <$> ms)).
  unfold get_tokenlen at 1. lia.
Qed.

Lemma summary_message_on_snd {A} sm (m : M world A) :
  preserves (fun s : Context * world => summary_message (fst s) = sm) (on_snd m).
Proof.
  intros [c w] o [c' w']. unfold on_snd. simpl.
  destruct (m w) as [o1 w1]. intros [= _ <- _]. auto.
Qed.

Lemma summary_message_set_context_list sm f :
  preserves (fun s : Context * world => summary_message (fst s) = sm)
            (set_context_list f).
Proof.
  intros [c w] o [c' w']. unfold set_context_list, modify. simpl.
  intros [= _ <- _]. auto.
Qed.

Lemma summary_message_prune_context sm fuel :
  preserves (fun s : Context * world => summary_message (fst s) = sm)
            (prune_context encode service API_KEY fuel).
Proof.
  unfold prune_context, summarize_context.
  apply preserves_bind; [| intros r].
  - apply preserves_bind; [apply preserves_frame; reflexivity | intros self].
    apply preserves_bind; [| intros dicts; apply summary_message_on_snd].
    apply preserves_frame. intros s. apply comprehension_method_frame.
  - apply preserves_bind; [| intros _]; apply summary_message_set_context_list.
Qed.

Lemma summary_message_while sm prompt fuel :
  preserves (fun s : Context * world => summary_message (fst s) = sm)
            (get_prepared_context_while encode service API_KEY fuel prompt).
Proof.
  induction fuel as [| fuel IH]; simpl; [apply preserves_frame; reflexivity |].
  apply preserves_bind; [| intros total].
  { apply preserves_frame. intros [c w]. rewrite get_context_tokenlen_eq.
    destruct (messages_of _); reflexivity. }
  apply preserves_bind; [apply preserves_frame; reflexivity | intros self].
  destruct (API_TOKEN_LIMIT <? _); [| apply preserves_frame; reflexivity].
  apply preserves_bind; [apply summary_message_prune_context | intros _; exact IH].
Qed.

(** X4.  When the context holds messages only and the budget test passes
    at once, [get_prepared_context] posts nothing and prunes nothing: it
    appends the prompt and returns the projections of the old entries
    and of the prompt. *)
Theorem get_prepared_context_fits fuel prompt c w ms :
  messages_of (context_list c) = Some ms ->
  PyList.sum (get_tokenlen encode <$> ms) + get_tokenlen encode prompt + MAX_TOKENS
    + get_tokenlen encode (summary_message c) <= API_TOKEN_LIMIT ->
  get_prepared_context encode service API_KEY (S fuel) prompt (c, w)
  = (Ret (to_dict <$> (ms ++ [prompt])),
     (mkContext (context_list c ++ [Some prompt]) (summary_message c), w)).
Proof.
  intros Hms Hfit.
  unfold get_prepared_context, bind at 1. simpl get_prepared_context_while.
  unfold bind at 1. rewrite get_context_tokenlen_eq, Hms.
  unfold bind at 1, self_context at 1. cbn [fst snd].
  rewrite (proj2 (Z.ltb_ge _ _) Hfit).
  unfold ret at 1, bind, set_context_list, modify, self_context, PyList.append.
  cbn [fst snd context_list summary_message].
  rewrite comprehension_method, messages_of_app, Hms. reflexivity.
Qed.

(** X5.  A prompt whose own token count, with [MAX_TOKENS] and the token
    count of the summary request, is over [API_TOKEN_LIMIT] is never
    accepted: whatever the service answers and however long the loop may
    run, neither [get_prepared_context] nor [submit_prompt] returns. *)
Theorem oversized_prompt_never_returns prompt c w :
  API_TOKEN_LIMIT < get_tokenlen encode prompt + MAX_TOKENS
                    + get_tokenlen encode (summary_message c) ->
  (forall fuel out s',
     get_prepared_context encode service API_KEY fuel prompt (c, w) <> (Ret out, s')) /\
  (forall fuel history r s',
     submit_prompt encode service API_KEY fuel prompt (mkChatManager c history, w)
       <> (Ret r, s')).
Proof.
  intros Hover.
  assert (Hprep : forall fuel out s',
            get_prepared_context encode service API_KEY fuel prompt (c, w)
              <> (Ret out, s')).
  { intros fuel out [c' w'] H.
    destruct (get_prepared_context_Ret _ _ _ _ _ _ _ _ _ _ H)
      as (c1 & ms & Hloop & _ & _ & _).
    pose proof (summary_message_while (summary_message c) prompt fuel _ _ _ Hloop eq_refl)
      as Hsm. simpl in Hsm.
    destruct (get_prepared_context_while_Ret _ _ _ _ _ _ _ _ _ Hloop) as (ms' & _ & Hle).
    rewrite Hsm in Hle. pose proof (sum_tokenlen_nonneg ms'). lia. }
  split; [exact Hprep |].
  intros fuel history r [m' w'] H.
  apply submit_prompt_Ret in H as (json_context & c1 & w1 & H & _).
  exact (Hprep _ _ _ H).
Qed.

(** X6.  Once [None] is in the context list, as after a summarization
    call that failed, the budget test raises before anything else is
    done: [get_prepared_context] and [submit_prompt] end with
    [AttributeError], nothing posted and nothing changed. *)
Theorem none_in_context_raises fuel prompt m w :
  None ∈ context_list (context m) ->
  get_prepared_context encode service API_KEY (S fuel) prompt (context m, w)
    = (Raise AttributeError, (context m, w)) /\
  submit_prompt encode service API_KEY (S fuel) prompt (m, w)
    = (Raise AttributeError, (m, w)).
Proof.
  intros Hin.
  assert (Hprep : get_prepared_context encode service API_KEY (S fuel) prompt (context m, w)
                  = (Raise AttributeError, (context m, w))).
  { unfold get_prepared_context, bind at 1. simpl get_prepared_context_while.
    unfold bind at 1. rewrite get_context_tokenlen_eq, (messages_of_None _ Hin).
    reflexivity. }
  split; [exact Hprep |].
  unfold submit_prompt, bind at 1, on_context. cbn [fst snd]. rewrite Hprep.
  destruct m; reflexivity.
Qed.

(** *** What a turn leaves behind *)

Lemma get_response_role fuel message_list role_arg : forall w x w',
  get_response encode service API_KEY fuel message_list role_arg w = (Ret (Some x), w') ->
  role x = default "user" role_arg.
Proof.
  induction fuel as [| fuel IH]; intros w x w'; simpl; [discriminate |].
  unfold bind at 1, requests_post at 1.
  destruct (status_code _ =? 200).
  - intros H.
    apply bind_Ret_inv in H as (j & w1 & _ & H).
    apply bind_Ret_inv in H as (choices & w2 & _ & H).
    apply bind_Ret_inv in H as (choice & w3 & _ & H).
    apply bind_Ret_inv in H as (message & w4 & _ & H).
    apply bind_Ret_inv in H as (text & w5 & _ & H).
    apply bind_Ret_inv in H as (completion & w6 & _ & H).
    apply bind_Ret_inv in H as (m & w7 & Hm & H).
    unfold ret in H. injection H as <- _.
    unfold ChatMessage_init, bind, datetime_now, ret in Hm. simpl in Hm.
    injection Hm as <- _. reflexivity.
  - destruct (status_code _ =? 429).
    + unfold bind at 1, time_sleep, modify. apply IH.
    + intros H. apply bind_Ret_inv in H as (j & w1 & _ & H). discriminate.
Qed.

(** X7.  When [submit_prompt] returns, the context is the one that
    [get_prepared_context] left, its last entry the prompt: the response
    is not put in the context.  [history] has grown by the prompt and by
    the returned value, and a returned message has the role
    [assistant]. *)
Theorem submit_prompt_returns fuel prompt m w r m' w' :
  submit_prompt encode service API_KEY fuel prompt (m, w) = (Ret r, (m', w')) ->
  (exists json_context w1,
     get_prepared_context encode service API_KEY fuel prompt (context m, w)
       = (Ret json_context, (context m', w1)) /\
     get_response encode service API_KEY fuel (JList json_context) (Some "assistant") w1
       = (Ret r, w')) /\
  last (context_list (context m')) = Some (Some prompt) /\
  history m' = history m ++ [Some prompt; r] /\
  (forall x, r = Some x -> role x = "assistant").
Proof.
  intros H.
  assert (Hsteps : exists json_context w1,
            get_prepared_context encode service API_KEY fuel prompt (context m, w)
              = (Ret json_context, (context m', w1)) /\
            get_response encode service API_KEY fuel (JList json_context)
              (Some "assistant") w1 = (Ret r, w') /\
            history m' = history m ++ [Some prompt; r]).
  { revert H. unfold submit_prompt, bind at 1, on_context. cbn [fst snd].
    destruct (get_prepared_context _ _ _ _ _ _) as [[json_context | e |] [c1 w1]]
      eqn:Eprep; try discriminate.
    unfold bind at 1, on_snd. cbn [fst snd].
    destruct (get_response _ _ _ _ _ _ _) as [[r1 | e |] w2] eqn:Eresp;
      try discriminate.
    unfold update_history, bind, set_history, modify, PyList.append, ret.
    cbn [fst snd context history].
    intros [= <- <- <-]. exists json_context, w1. cbn [context history].
    rewrite <- app_assoc. repeat split; assumption. }
  destruct Hsteps as (json_context & w1 & Hprep & Hresp & Hhist).
  split; [exists json_context, w1; split; assumption |].
  split; [| split; [exact Hhist |]].
  - destruct (get_prepared_context_Ret _ _ _ _ _ _ _ _ _ _ Hprep)
      as (c1 & ms & _ & _ & -> & _).
    simpl. apply last_snoc.
  - intros x ->. exact (get_response_role _ _ _ _ _ _ Hresp).
Qed.

(** X9.  After a turn that failed, that is after [submit_prompt]
    returned [None], [history] holds [None] and [get_history] raises
    [AttributeError]. *)
Theorem get_history_after_failure fuel prompt m w m' w' :
  submit_prompt encode service API_KEY fuel prompt (m, w) = (Ret None, (m', w')) ->
  forall w'', get_history (m', w'') = (Raise AttributeError, (m', w'')).
Proof.
  intros H w''.
  apply submit_prompt_Ret in H as (json_context & c1 & w1 & _ & ->).
  unfold get_history, bind, self_manager. cbn [fst history].
  rewrite comprehension_method, messages_of_None; [reflexivity |].
  apply elem_of_app. right.
  apply elem_of_cons. right. apply elem_of_cons. left. reflexivity.
Qed.

(** *** Reset of a chat *)

Lemma summary_message_get_prepared_context sm prompt fuel :
  preserves (fun s : Context * world => summary_message (fst s) = sm)
            (get_prepared_context encode service API_KEY fuel prompt).
Proof.
  unfold get_prepared_context.
  apply preserves_bind; [apply summary_message_while | intros _].
  apply preserves_bind; [apply summary_message_set_context_list | intros _].
  apply preserves_bind; [apply preserves_frame; reflexivity | intros self].
  apply preserves_frame. intros s. apply comprehension_method_frame.
Qed.

(** A call of the manager that returns keeps the first entry of the
    context list, the first entry of [history] and the summary request. *)
Lemma run_manager_call_keeps_heads fuel call m w u m' w' p h :
  run_manager_call encode service API_KEY fuel call (m, w) = (Ret u, (m', w')) ->
  context_list (context m) !! 0%nat = Some p ->
  history m !! 0%nat = Some h ->
  context_list (context m') !! 0%nat = Some p /\
  history m' !! 0%nat = Some h /\
  summary_message (context m') = summary_message (context m).
Proof.
  intros Hrun Hp Hh.
  destruct call as [prompt | |]; simpl in Hrun.
  - apply bind_Ret_inv in Hrun as (r & [m1 w1] & Hsub & Hret).
    unfold ret in Hret. injection Hret as _ <- <-.
    apply submit_prompt_Ret in Hsub as (json_context & c1 & w2 & Hprep & ->).
    cbn [context history]. split; [| split].
    + exact (first_is_get_prepared_context _ _ _ p prompt fuel _ _ _ Hprep Hp).
    + apply lookup_app_l_Some. exact Hh.
    + exact (summary_message_get_prepared_context _ prompt fuel _ _ _ Hprep eq_refl).
  - unfold reset_chat, bind, on_context, reset_context, set_context_list,
      set_history, modify, PyList.del_from in Hrun. simpl in Hrun.
    injection Hrun as _ <- <-. cbn [context history context_list summary_message].
    destruct (context_list (context m)); [discriminate |].
    destruct (history m); [discriminate |].
    split; [exact Hp | split; [exact Hh | reflexivity]].
  - apply bind_Ret_inv in Hrun as (out & [m1 w1] & Hget & Hret).
    unfold ret in Hret. injection Hret as _ <- <-.
    unfold get_history, bind, self_manager in Hget. simpl in Hget.
    rewrite comprehension_method in Hget.
    destruct (messages_of (history m)); [| discriminate].
    injection Hget as _ <- <-. split; [exact Hp | split; [exact Hh | reflexivity]].
Qed.

Lemma run_manager_calls_keeps_heads fuel calls p h : forall m w m' w',
  run_manager_calls encode service API_KEY fuel calls (m, w) = Some (m', w') ->
  context_list (context m) !! 0%nat = Some p ->
  history m !! 0%nat = Some h ->
  context_list (context m') !! 0%nat = Some p /\
  history m' !! 0%nat = Some h /\
  summary_message (context m') = summary_message (context m).
Proof.
  induction calls as [| call calls IH]; intros m w m' w'; simpl.
  - intros [= <- <-] Hp Hh. repeat split; assumption.
  - destruct (run_manager_call _ _ _ _ _ _) as [[u | e |] [m1 w1]] eqn:E;
      try discriminate.
    intros Hrun Hp Hh.
    destruct (run_manager_call_keeps_heads _ _ _ _ _ _ _ _ _ E Hp Hh)
      as (Hp1 & Hh1 & Hsm1).
    destruct (IH _ _ _ _ Hrun Hp1 Hh1) as (Hp' & Hh' & Hsm').
    repeat split; congruence.
Qed.

(** X8.  [reset_chat] brings a chat back to where it started: after any
    sequence of calls that return, on a manager created for a
    personality, it leaves exactly the manager that [ChatManager] made,
    summaries and [None] entries gone, and touches nothing outside. *)
Theorem reset_chat_restores personality w fuel calls m0 w0 m' w' :
  ChatManager_init encode personality w = (Ret m0, w0) ->
  run_manager_calls encode service API_KEY fuel calls (m0, w0) = Some (m', w') ->
  reset_chat (m', w') = (Ret tt, (m0, w')).
Proof.
  intros Hinit Hrun.
  unfold ChatManager_init, Context_init, get_personality_prompt, ChatMessage_init,
    bind, datetime_now, ret in Hinit. simpl in Hinit.
  injection Hinit as <- <-.
  destruct (run_manager_calls_keeps_heads _ _ _ _ _ _ _ _ Hrun eq_refl eq_refl)
    as (Hp & Hh & Hsm).
  unfold reset_chat, bind, on_context, reset_context, set_context_list,
    set_history, modify, PyList.del_from. simpl.
  destruct (context_list (context m')) as [| p0 cl]; [discriminate |].
  destruct (history m') as [| h0 hl]; [discriminate |].
  simpl in Hp, Hh, Hsm. injection Hp as ->. injection Hh as ->.
  rewrite Hsm. reflexivity.
Qed.

End Behaviour.

(** ** The history and the summaries of a chat *)





Section HistoryAndContext.

Variable encode : string -> list N.
Variable service : list request -> request -> http_response.
Variable API_KEY : string.










End HistoryAndContext.

(** ** The personality manager *)

Lemma first_named_app n st l1 l2 :
  first_named n st (l1 ++ l2) =
  match first_named n st l1 with
  | Some r => Some r
  | None => first_named n st l2
  end.
Proof.
  induction l1 as [| r l1 IH]; simpl; [reflexivity |].
  destruct (get_name r st) as [m |]; [| exact IH].
  destruct (String.eqb m n); [reflexivity | exact IH].
Qed.

Lemma first_named_Some n st l r :
  first_named n st l = Some r ->
  exists i, l !! i = Some r /\ get_name r st = Some n /\
            forall j r', (j < i)%nat -> l !! j = Some r' -> get_name r' st <> Some n.
Proof.
  induction l as [| r0 l IH]; simpl; [discriminate |].
  destruct (get_name r0 st) as [m |] eqn:Hm.
  - destruct (String.eqb m n) eqn:E.
    + intros [= <-]. apply String.eqb_eq in E as ->.
      exists 0%nat. split; [reflexivity |]. split; [exact Hm |]. intros j r' Hj. lia.
    + intros H. destruct (IH H) as (i & Hi & Hn & Hfirst).
      exists (S i). split; [exact Hi |]. split; [exact Hn |].
      intros [| j] r' Hj Hr'.
      * simpl in Hr'. injection Hr' as <-. rewrite Hm. intros [= ->].
        rewrite String.eqb_refl in E. discriminate.
      * apply (Hfirst j r'); [lia | exact Hr'].
  - intros H. destruct (IH H) as (i & Hi & Hn & Hfirst).
    exists (S i). split; [exact Hi |]. split; [exact Hn |].
    intros [| j] r' Hj Hr'.
    + simpl in Hr'. injection Hr' as <-. rewrite Hm. discriminate.
    + apply (Hfirst j r'); [lia | exact Hr'].
Qed.

Lemma first_named_None n st l :
  first_named n st l = None <-> forall r, r ∈ l -> get_name r st <> Some n.
Proof.
  induction l as [| r0 l IH]; simpl.
  - split; [intros _ r Hr; inversion Hr | reflexivity].
  - destruct (get_name r0 st) as [m |] eqn:Hm.
    + destruct (String.eqb m n) eqn:E.
      * apply String.eqb_eq in E as ->. split; [discriminate |].
        intros H. destruct (H r0); [apply elem_of_cons; left; reflexivity | exact Hm].
      * rewrite IH. split.
        -- intros H r Hr. apply elem_of_cons in Hr as [-> | Hr]; [| exact (H r Hr)].
           rewrite Hm. intros [= ->]. rewrite String.eqb_refl in E. discriminate.
        -- intros H r Hr. apply H. apply elem_of_cons. right. exact Hr.
    + rewrite IH. split.
      * intros H r Hr. apply elem_of_cons in Hr as [-> | Hr]; [| exact (H r Hr)].
        rewrite Hm. discriminate.
      * intros H r Hr. apply H. apply elem_of_cons. right. exact Hr.
Qed.

(** X10.  [get_personality] changes nothing and returns the first entry
    of the list whose object has the name, and [None] exactly when no
    entry has. *)
Theorem get_personality_first n pm st :
  exists o,
    get_personality n (pm, st) = (Ret o, (pm, st)) /\
    match o with
    | Some r =>
        exists i, personality_list pm !! i = Some r /\
                  get_name r st = Some n /\
                  forall j r', (j < i)%nat -> personality_list pm !! j = Some r' ->
                               get_name r' st <> Some n
    | None => forall r, r ∈ personality_list pm -> get_name r st <> Some n
    end.
Proof.
  exists (first_named n st (personality_list pm)). split; [reflexivity |].
  destruct (first_named n st (personality_list pm)) as [r |] eqn:E.
  - exact (first_named_Some _ _ _ _ E).
  - apply first_named_None. exact E.
Qed.

(** X11.  Under a name that no personality of the list has, the three
    setters raise [AttributeError], [remove_personality] raises
    [ValueError], and nothing is changed. *)
Theorem missing_name_raises n v s :
  (forall r, r ∈ personality_list (fst s) -> get_name r (snd s) <> Some n) ->
  set_personality_name n v s = (Raise AttributeError, s) /\
  set_personality_description n v s = (Raise AttributeError, s) /\
  set_personality_system_prompt n v s = (Raise AttributeError, s) /\
  remove_personality n s = RaisedValueError.
Proof.
  intros H. apply first_named_None in H.
  unfold set_personality_name, set_personality_description,
    set_personality_system_prompt, remove_personality, bind, get_personality.
  rewrite H. repeat split.
Qed.

(** X12.  [set_personality_name] renames the first personality that has
    the old name, and that object only: its description and its prompt
    stay, every other object stays, and the manager's list stays.  The
    object is shared, so the new name shows at every place that refers to
    it, in the manager's list and in any copy of it handed out before. *)
Theorem set_personality_name_renames n v pm st r :
  first_named n st (personality_list pm) = Some r ->
  exists st',
    set_personality_name n v (pm, st) = (Ret tt, (pm, st')) /\
    length st' = length st /\
    get_name r st' = Some v /\
    get_description r st' = get_description r st /\
    get_system_prompt r st' = get_system_prompt r st /\
    (forall r', r' <> r -> st' !! r' = st !! r') /\
    (forall l : list nat,
       names_of st' l
       = (fun r' => if decide (r' = r) then Some v else get_name r' st) <$> l).
Proof.
  intros Hfirst.
  destruct (first_named_Some _ _ _ _ Hfirst) as (i & _ & Hname & _).
  exists (set_name r v st).
  unfold set_personality_name, bind, get_personality. simpl. rewrite Hfirst.
  split; [reflexivity |].
  unfold get_name in Hname. destruct (st !! r) as [p |] eqn:Hp; [| discriminate].
  assert (Hr : set_name r v st !! r
               = Some (mkPersonality v (description p) (system_prompt p))).
  { unfold set_name. rewrite list_lookup_alter_eq, Hp. reflexivity. }
  assert (Hother : forall r', r' <> r -> set_name r v st !! r' = st !! r').
  { intros r' Hne. unfold set_name. apply list_lookup_alter_ne. congruence. }
  split; [apply length_alter |].
  unfold get_name, get_description, get_system_prompt. rewrite Hr, Hp. simpl.
  repeat split; [exact Hother |].
  intros l. unfold names_of. apply list_fmap_ext. intros j r' _.
  destruct (decide (r' = r)) as [-> | Hne].
  - unfold get_name. rewrite Hr. reflexivity.
  - unfold get_name. rewrite (Hother r' Hne). reflexivity.
Qed.

Lemma remove_at r l : forall i,
  l !! i = Some r ->
  (forall j r', (j < i)%nat -> l !! j = Some r' -> r' <> r) ->
  PySeq.remove r l = Some (delete i l).
Proof.
  induction l as [| y l IH]; intros i Hi Hfirst; [discriminate |].
  destruct i as [| i]; simpl.
  - simpl in Hi. injection Hi as ->. rewrite Nat.eqb_refl. reflexivity.
  - assert (Hy : y <> r) by (apply (Hfirst 0%nat y); [lia | reflexivity]).
    rewrite (proj2 (Nat.eqb_neq y r) Hy).
    rewrite (IH i Hi); [reflexivity |].
    intros j r' Hj Hr'. apply (Hfirst (S j) r'); [lia | exact Hr'].
Qed.

(** X13.  [remove_personality] takes out of the list the first entry
    whose object has the name, and that entry only: the entries before
    and after it keep their order, a later personality of the same name
    stays, and no object is changed. *)
Theorem remove_personality_first n pm st r :
  first_named n st (personality_list pm) = Some r ->
  exists i,
    personality_list pm !! i = Some r /\
    (forall j r', (j < i)%nat -> personality_list pm !! j = Some r' ->
                  get_name r' st <> Some n) /\
    remove_personality n (pm, st)
      = Removed (mkPersonalityManager (delete i (personality_list pm)), st) /\
    length (delete i (personality_list pm)) = Nat.pred (length (personality_list pm)).
Proof.
  intros Hfirst.
  destruct (first_named_Some _ _ _ _ Hfirst) as (i & Hi & Hname & Hbefore).
  exists i. split; [exact Hi |]. split; [exact Hbefore |]. split.
  - unfold remove_personality. simpl. rewrite Hfirst.
    rewrite (remove_at r _ i Hi); [reflexivity |].
    intros j r' Hj Hr' ->. exact (Hbefore j r Hj Hr' Hname).
  - rewrite length_delete; [lia |]. rewrite Hi. eauto.
Qed.

(** X14.  [add_personality] puts the personality at the end of the list.
    Looked up by its name it is found only when no older entry has that
    name: otherwise [get_personality] goes on returning the older one.
    Lookups by another name are as before. *)
Theorem add_personality_then_get r n pm st :
  get_name r st = Some n ->
  let s' := (mkPersonalityManager (personality_list pm ++ [r]), st) in
  add_personality r (pm, st) = (Ret tt, s') /\
  get_personality n s'
    = (Ret (Some (default r (first_named n st (personality_list pm)))), s') /\
  (forall m, m <> n ->
     get_personality m s' = (Ret (first_named m st (personality_list pm)), s')).
Proof.
  intros Hname s'. split; [reflexivity |].
  unfold get_personality, s'. simpl. rewrite !first_named_app. split.
  - destruct (first_named n st (personality_list pm)); [reflexivity |].
    simpl. rewrite Hname, String.eqb_refl. reflexivity.
  - intros m Hm. rewrite first_named_app.
    destruct (first_named m st (personality_list pm)); [reflexivity |].
    simpl. rewrite Hname. rewrite (proj2 (String.eqb_neq n m)) by congruence.
    reflexivity.
Qed.

Lemma refs_valid_grow pm st p :
  refs_valid (pm, st) -> refs_valid (pm, st ++ [p]).
Proof.
  unfold refs_valid. simpl. intros H. eapply Forall_impl; [exact H |].
  intros r Hr. simpl in Hr. rewrite length_app. simpl. lia.
Qed.

(** Every entry of the manager's list is the address of an
    object, always: a new manager has it so whatever the store it is
    made in, and a new object, the addition of an object, the three
    setters and a removal keep it so. *)
Theorem refs_valid_kept :
  (forall st, refs_valid (PersonalityManager_init st)) /\
  (forall n d p s, refs_valid s ->
     refs_valid (fst s, snd (Personality_new n d p (snd s))) /\
     (fst (Personality_new n d p (snd s)) < length (snd (Personality_new n d p (snd s))))%nat) /\
  (forall r s, refs_valid s -> (r < length (snd s))%nat ->
     refs_valid (snd (add_personality r s))) /\
  (forall n v s, refs_valid s ->
     refs_valid (snd (set_personality_name n v s)) /\
     refs_valid (snd (set_personality_description n v s)) /\
     refs_valid (snd (set_personality_system_prompt n v s))) /\
  (forall n s s', refs_valid s -> remove_personality n s = Removed s' -> refs_valid s').
Proof.
  split; [| split; [| split; [| split]]].
  - intros st. unfold refs_valid, PersonalityManager_init, build_default_personalities,
      Personality_new. simpl. rewrite !length_app. simpl.
    repeat (apply Forall_cons; split; [lia |]). apply Forall_nil. trivial.
  - intros n d p [pm st] H. simpl. split; [apply refs_valid_grow; exact H |].
    rewrite length_app. simpl. lia.
  - intros r [pm st] H Hr. unfold refs_valid, add_personality, modify. simpl in *.
    apply Forall_app. split; [exact H |]. apply Forall_cons. split; [exact Hr |].
    apply Forall_nil. trivial.
  - intros n v [pm st] H.
    unfold set_personality_name, set_personality_description,
      set_personality_system_prompt, bind, get_personality, setter. simpl.
    destruct (first_named n st (personality_list pm)) as [r |]; simpl;
      [| repeat split; exact H].
    unfold refs_valid, set_name, set_description, set_system_prompt. simpl.
    rewrite !length_alter. repeat split; exact H.
  - intros n [pm st] s' H. unfold remove_personality. simpl.
    destruct (first_named n st (personality_list pm)) as [r |] eqn:Hfirst;
      [| discriminate].
    destruct (first_named_Some _ _ _ _ Hfirst) as (i & Hi & Hname & Hbefore).
    rewrite (remove_at r _ i Hi).
    + intros [= <-]. unfold refs_valid. simpl. apply Forall_delete. exact H.
    + intros j r' Hj Hr' ->. exact (Hbefore j r Hj Hr' Hname).
Qed.

(** ** The command loop *)

Section ConsoleProperties.

Variable encode : string -> list N.
Variable service : list request -> request -> http_response.
Variable API_KEY : string.
Variable py_int : string -> option Z.

(** A turn against a service that answers with an error, when the prompt
    fits the budget at once: [None] comes back, or the diagnostic print
    raises on a body that is not JSON and [history] is not reached. *)
Lemma submit_prompt_service_error fuel prompt m w ms :
  let req := request_of API_KEY (JList (to_dict <$> (ms ++ [prompt]))) in
  let c' := mkContext (context_list (context m) ++ [Some prompt])
                      (summary_message (context m)) in
  messages_of (context_list (context m)) = Some ms ->
  PyList.sum (get_tokenlen encode <$> ms) + get_tokenlen encode prompt + MAX_TOKENS
    + get_tokenlen encode (summary_message (context m)) <= API_TOKEN_LIMIT ->
  status_code (service (posted w) req) <> 200 ->
  status_code (service (posted w) req) <> 429 ->
  submit_prompt encode service API_KEY (S fuel) prompt (m, w)
  = match body (service (posted w) req) with
    | Some _ =>
        (Ret None,
         (mkChatManager c' (history m ++ [Some prompt; None]),
          World (posted w ++ [req]) (clock w)))
    | None =>
        (Raise JSONDecodeError,
         (mkChatManager c' (history m), World (posted w ++ [req]) (clock w)))
    end.
Proof.
  intros req c' Hms Hfit H200 H429.
  unfold submit_prompt, bind at 1, on_context. cbn [fst snd].
  unfold get_prepared_context, bind at 1. simpl get_prepared_context_while.
  unfold bind at 1. rewrite get_context_tokenlen_eq, Hms.
  unfold bind at 1, self_context at 1. cbn [fst snd].
  rewrite (proj2 (Z.ltb_ge _ _) Hfit).
  unfold ret at 1, bind at 1, set_context_list at 1, modify at 1.
  unfold bind at 1, self_context at 1, PyList.append.
  cbn [fst snd context_list summary_message].
  rewrite comprehension_method, messages_of_app, Hms.
  cbn [messages_of fmap option_fmap option_map].
  unfold bind at 1, on_snd. cbn [fst snd].
  simpl get_response. unfold bind at 1, requests_post at 1.
  change (Request API_URL (request_headers API_KEY)
            (request_data (JList (to_dict <$> (ms ++ [prompt]))))) with req.
  rewrite (proj2 (Z.eqb_neq _ _) H200), (proj2 (Z.eqb_neq _ _) H429).
  unfold bind at 1, response_json at 1.
  destruct (body (service (posted w) req)); [| reflexivity].
  unfold ret at 1, ret at 1.
  unfold update_history, bind, set_history, modify, PyList.append, ret.
  cbn [fst snd context history]. rewrite <- app_assoc. reflexivity.
Qed.

(** X15.  A service error ends the program.  When the line typed is not
    a command, the prompt fits the budget and the service answers with a
    status that is neither 200 nor 429, the turn leaves the prompt in the
    context and [main] stops.  If the body of the answer is JSON, the
    prompt and [None] are in [history] and [main] stops on the
    [AttributeError] of [response_message.get_content()].  If it is not,
    the diagnostic print of [get_response] raises [JSONDecodeError],
    [main] stops on that and [history] is as it was. *)
Theorem main_loop_crashes_on_service_error fuel call_fuel s user_prompt lines ms :
  let prompt := mkChatMessage "user" user_prompt (clock (outside s))
                  (get_tokenlen encode
                     (mkChatMessage "user" user_prompt (clock (outside s)) 0)) in
  let req := request_of API_KEY (JList (to_dict <$> (ms ++ [prompt]))) in
  let c' := mkContext (context_list (context (chat_manager s)) ++ [Some prompt])
                      (summary_message (context (chat_manager s))) in
  let w' := World (posted (outside s) ++ [req]) (clock (outside s)) in
  stdin s = user_prompt :: lines ->
  PySeq.lower user_prompt <> "quit" ->
  PySeq.lower user_prompt <> "#personality" ->
  PySeq.lower user_prompt <> "#history" ->
  messages_of (context_list (context (chat_manager s))) = Some ms ->
  PyList.sum (get_tokenlen encode <$> ms) + get_tokenlen encode prompt + MAX_TOKENS
    + get_tokenlen encode (summary_message (context (chat_manager s)))
    <= API_TOKEN_LIMIT ->
  status_code (service (posted (outside s)) req) <> 200 ->
  status_code (service (posted (outside s)) req) <> 429 ->
  main_loop encode service API_KEY py_int (S fuel) (S call_fuel) s
  = match body (service (posted (outside s)) req) with
    | Some _ =>
        Crashed AttributeError
          (MainState (personalities s) (personality_manager s)
             (mkChatManager c' (history (chat_manager s) ++ [Some prompt; None]))
             w' lines)
    | None =>
        Crashed JSONDecodeError
          (MainState (personalities s) (personality_manager s)
             (mkChatManager c' (history (chat_manager s))) w' lines)
    end.
Proof.
  intros prompt req c' w' Hstdin Hquit Hpers Hhist Hms Hfit H200 H429.
  destruct s as [st pm cm w inp]. cbn [stdin outside chat_manager personalities
    personality_manager] in *. subst inp.
  cbn [main_loop stdin with_stdin chat_manager outside].
  rewrite (proj2 (String.eqb_neq _ _) Hquit), (proj2 (String.eqb_neq _ _) Hpers),
    (proj2 (String.eqb_neq _ _) Hhist).
  unfold ChatMessage_init, bind, datetime_now, ret. cbn [fst snd].
  fold prompt.
  rewrite (submit_prompt_service_error call_fuel prompt cm w ms Hms Hfit H200 H429).
  fold req. destruct (body (service (posted w) req)); reflexivity.
Qed.

(** *** The choice of a personality *)

Ltac read_state :=
  unfold with_stdin, with_chat;
  cbn [stdin outside chat_manager personalities personality_manager personality_list].

Lemma getitem_elem {A} (k : Z) (l : list A) x : PySeq.getitem k l = Some x -> x ∈ l.
Proof.
  unfold PySeq.getitem.
  destruct ((0 <=? k) && (k <? Z.of_nat (length l))).
  - apply list_elem_of_lookup_2.
  - destruct ((- Z.of_nat (length l) <=? k) && (k <? 0)); [| discriminate].
    apply list_elem_of_lookup_2.
Qed.

(** X16.  A number typed at [Select number] that is zero or negative
    counts from the end of the list: when [int] reads it as [n] and
    [n - 1] is at least minus the length of the list, [main] starts a
    chat with the personality at [length + (n - 1)], so that 0 chooses
    the last personality and -1 the one before it. *)
Theorem selection_counts_from_the_end fuel call_fuel s command select lines n r p :
  let l := personality_list (personality_manager s) in
  stdin s = command :: select :: lines ->
  PySeq.lower command = "#personality" ->
  py_int select = Some n ->
  - Z.of_nat (length l) <= n - 1 < 0 ->
  l !! Z.to_nat (Z.of_nat (length l) + (n - 1)) = Some r ->
  personalities s !! r = Some p ->
  exists m,
    ChatManager_init encode p (outside s) = (Ret m, outside s) /\
    main_loop encode service API_KEY py_int (S fuel) call_fuel s
    = main_loop encode service API_KEY py_int fuel call_fuel
        (MainState (personalities s) (personality_manager s) m (outside s) lines).
Proof.
  intros l Hstdin Hcommand Hint Hrange Hr Hp.
  destruct s as [st pm cm w inp]. cbn [stdin outside chat_manager personalities
    personality_manager] in *. subst inp.
  eexists. split; [reflexivity |].
  cbn [main_loop stdin with_stdin chat_manager outside personality_manager personalities].
  rewrite Hcommand. cbn [String.eqb Ascii.eqb Bool.eqb andb]. rewrite Hint.
  read_state. fold l. cbn zeta.
  rewrite (proj2 (Z.eqb_neq (n - 1) (Z.of_nat (length l)))) by lia.
  rewrite (proj2 (Z.ltb_ge (Z.of_nat (length l)) (n - 1))) by lia.
  unfold switch_personality, PySeq.getitem. read_state. fold l.
  rewrite (proj2 (Z.leb_gt 0 (n - 1))) by lia. cbn [andb].
  rewrite (proj2 (Z.leb_le (- Z.of_nat (length l)) (n - 1))) by lia.
  rewrite (proj2 (Z.ltb_lt (n - 1) 0)) by lia. cbn [andb].
  rewrite Hr, Hp. reflexivity.
Qed.

(** X17.  A number too far below zero ends the program: when [n - 1] is
    less than minus the length of the list, the index is out of range
    and [main] stops on [IndexError], the chat as it was. *)
Theorem selection_below_range_crashes fuel call_fuel s command select lines n :
  let l := personality_list (personality_manager s) in
  stdin s = command :: select :: lines ->
  PySeq.lower command = "#personality" ->
  py_int select = Some n ->
  n - 1 < - Z.of_nat (length l) ->
  main_loop encode service API_KEY py_int (S fuel) call_fuel s
  = Crashed IndexError (with_stdin lines s).
Proof.
  intros l Hstdin Hcommand Hint Hrange.
  destruct s as [st pm cm w inp]. cbn [stdin outside chat_manager personalities
    personality_manager] in *. subst inp.
  cbn [main_loop stdin with_stdin chat_manager outside personality_manager personalities].
  rewrite Hcommand. cbn [String.eqb Ascii.eqb Bool.eqb andb]. rewrite Hint.
  read_state. fold l. cbn zeta.
  rewrite (proj2 (Z.eqb_neq (n - 1) (Z.of_nat (length l)))) by lia.
  rewrite (proj2 (Z.ltb_ge (Z.of_nat (length l)) (n - 1))) by lia.
  unfold switch_personality, PySeq.getitem. read_state. fold l.
  rewrite (proj2 (Z.leb_gt 0 (n - 1))) by lia. cbn [andb].
  rewrite (proj2 (Z.leb_gt (- Z.of_nat (length l)) (n - 1))) by lia. reflexivity.
Qed.

(** X18.  A selection that [int] cannot read, or a number above the
    entry [Custom], is refused and changes nothing: the two lines are
    read, and the chat, the personalities and the world are as before. *)
Theorem selection_refused fuel call_fuel s command select lines :
  let l := personality_list (personality_manager s) in
  stdin s = command :: select :: lines ->
  PySeq.lower command = "#personality" ->
  (py_int select = None \/
   exists n, py_int select = Some n /\ Z.of_nat (length l) + 1 < n) ->
  main_loop encode service API_KEY py_int (S fuel) call_fuel s
  = main_loop encode service API_KEY py_int fuel call_fuel (with_stdin lines s).
Proof.
  intros l Hstdin Hcommand Hselect.
  destruct s as [st pm cm w inp]. cbn [stdin outside chat_manager personalities
    personality_manager] in *. subst inp.
  cbn [main_loop stdin with_stdin chat_manager outside personality_manager personalities].
  rewrite Hcommand. cbn [String.eqb Ascii.eqb Bool.eqb andb].
  destruct Hselect as [-> | (n & -> & Hn)]; [reflexivity |].
  read_state. fold l. cbn zeta.
  rewrite (proj2 (Z.eqb_neq (n - 1) (Z.of_nat (length l)))) by lia.
  rewrite (proj2 (Z.ltb_lt (Z.of_nat (length l)) (n - 1))) by lia. reflexivity.
Qed.

(** X19.  The number of the entry [Custom], one above the length of the
    list, makes a personality of the two lines typed next, of
    description [Custom], puts it at the end of the list and starts a
    chat with it: the context and [history] of the new chat are its
    prompt alone.  The other personalities are not touched. *)
Theorem selection_custom fuel call_fuel s command select pname pprompt lines n :
  let l := personality_list (personality_manager s) in
  let st := personalities s in
  stdin s = command :: select :: pname :: pprompt :: lines ->
  PySeq.lower command = "#personality" ->
  py_int select = Some n ->
  n - 1 = Z.of_nat (length l) ->
  exists m,
    ChatManager_init encode (mkPersonality pname "Custom" pprompt) (outside s)
      = (Ret m, outside s) /\
    (exists pinned first,
       context_list (context m) = [Some pinned] /\ history m = [Some first] /\
       role pinned = "system" /\ content pinned = pprompt /\
       role first = "system" /\ content first = pprompt) /\
    main_loop encode service API_KEY py_int (S fuel) call_fuel s
    = main_loop encode service API_KEY py_int fuel call_fuel
        (MainState (st ++ [mkPersonality pname "Custom" pprompt])
           (mkPersonalityManager (l ++ [length st])) m (outside s) lines).
Proof.
  intros l st Hstdin Hcommand Hint Hn.
  destruct s as [st0 pm cm w inp]. cbn [stdin outside chat_manager personalities
    personality_manager] in *. subst inp.
  eexists. split; [reflexivity |]. split.
  { eexists _, _. repeat split. }
  cbn [main_loop stdin with_stdin chat_manager outside personality_manager personalities].
  rewrite Hcommand. cbn [String.eqb Ascii.eqb Bool.eqb andb]. rewrite Hint.
  read_state. fold l. cbn zeta.
  rewrite (proj2 (Z.eqb_eq _ _) Hn).
  unfold Personality_new. fold st.
  unfold switch_personality, PySeq.getitem. read_state.
  rewrite length_app. cbn [length].
  rewrite (proj2 (Z.leb_le 0 (n - 1))) by lia.
  rewrite (proj2 (Z.ltb_lt _ _)) by lia. cbn [andb].
  rewrite Hn, Nat2Z.id.
  rewrite (list_lookup_middle l [] (length st) (length l) eq_refl).
  rewrite (list_lookup_middle st [] _ (length st) eq_refl).
  reflexivity.
Qed.

(** *** The addresses in a run *)

Lemma switch_personality_sound k s continue :
  refs_valid (personality_manager s, personalities s) ->
  (forall m w, match continue (with_chat m w s) with
               | Dangling | CrashedEarly _ => False
               | _ => True
               end) ->
  match switch_personality encode k s continue with
  | Dangling | CrashedEarly _ => False
  | _ => True
  end.
Proof.
  intros Hvalid Hcontinue. unfold switch_personality.
  destruct (PySeq.getitem k _) as [r |] eqn:Hk; [| exact I].
  apply getitem_elem in Hk.
  unfold refs_valid in Hvalid. simpl in Hvalid.
  rewrite Forall_forall in Hvalid. specialize (Hvalid r Hk).
  destruct (lookup_lt_is_Some_2 (personalities s) r Hvalid) as [p ->].
  destruct (ChatManager_init encode p (outside s)) as [[m | e |] w]; try exact I.
  apply Hcontinue.
Qed.

Lemma main_loop_sound call_fuel fuel : forall s,
  refs_valid (personality_manager s, personalities s) ->
  match main_loop encode service API_KEY py_int fuel call_fuel s with
  | Dangling | CrashedEarly _ => False
  | _ => True
  end.
Proof.
  induction fuel as [| fuel IH]; intros s Hvalid; [exact I |].
  destruct s as [st pm cm w inp]. cbn [main_loop]. read_state.
  destruct inp as [| user_prompt lines]; [exact I |].
  destruct (String.eqb (PySeq.lower user_prompt) "quit"); [exact I |].
  destruct (String.eqb (PySeq.lower user_prompt) "#personality").
  - destruct lines as [| select lines]; [exact I |].
    destruct (py_int select) as [n |]; [| apply IH; exact Hvalid].
    cbn zeta. destruct (n - 1 =? _).
    + destruct lines as [| pname [| pprompt lines]]; try exact I.
      unfold Personality_new.
      apply switch_personality_sound.
      * unfold refs_valid in *. simpl in *. apply Forall_app. split.
        -- eapply Forall_impl; [exact Hvalid |]. intros r Hr. simpl in Hr.
           rewrite length_app. simpl. lia.
        -- apply Forall_cons. split; [| apply Forall_nil; trivial].
           rewrite length_app. simpl. lia.
      * intros m w0. apply IH. unfold refs_valid in *. simpl in *.
        apply Forall_app. split.
        -- eapply Forall_impl; [exact Hvalid |]. intros r Hr. simpl in Hr.
           rewrite length_app. simpl. lia.
        -- apply Forall_cons. split; [| apply Forall_nil; trivial].
           rewrite length_app. simpl. lia.
    + destruct (_ <? n - 1); [apply IH; exact Hvalid |].
      apply switch_personality_sound; [exact Hvalid |].
      intros m w0. apply IH. exact Hvalid.
  - destruct (String.eqb (PySeq.lower user_prompt) "#history").
    + destruct (get_history _) as [[out | e |] s']; try exact I.
      apply IH. exact Hvalid.
    + destruct (ChatMessage_init encode "user" user_prompt w) as [[msg | e |] w1];
        try exact I.
      destruct (submit_prompt _ _ _ _ _ _) as [[[response |] | e |] [m w2]];
        try exact I.
      apply IH. exact Hvalid.
Qed.

(** [main] always gets to its loop, with the five personalities of
    [build_default_personalities] and a chat for the first of them, and
    a run never uses an address that names no object: it ends by [quit],
    by an exception raised in the loop, at an [input()] or not at all. *)
Theorem main_starts_and_stays_sound fuel call_fuel w lines :
  (exists m pinned,
     main encode service API_KEY py_int fuel call_fuel w lines
     = main_loop encode service API_KEY py_int fuel call_fuel
         (MainState (snd (PersonalityManager_init [])) (fst (PersonalityManager_init []))
            m w lines) /\
     context_list (context m) = [Some pinned] /\
     role pinned = "system" /\
     content pinned = "You are a helpful assistant." /\
     names_of (snd (PersonalityManager_init []))
              (personality_list (fst (PersonalityManager_init [])))
     = [Some "Helpful"; Some "Comedian"; Some "Computer Expert"; Some "Snarky";
        Some "Counselor"]) /\
  match main encode service API_KEY py_int fuel call_fuel w lines with
  | Dangling | CrashedEarly _ => False
  | _ => True
  end.
Proof.
  assert (Hstart : exists m pinned,
            main encode service API_KEY py_int fuel call_fuel w lines
            = main_loop encode service API_KEY py_int fuel call_fuel
                (MainState (snd (PersonalityManager_init []))
                   (fst (PersonalityManager_init [])) m w lines) /\
            context_list (context m) = [Some pinned] /\
            role pinned = "system" /\
            content pinned = "You are a helpful assistant." /\
            names_of (snd (PersonalityManager_init []))
                     (personality_list (fst (PersonalityManager_init [])))
            = [Some "Helpful"; Some "Comedian"; Some "Computer Expert"; Some "Snarky";
               Some "Counselor"]).
  { eexists _, _. split; [reflexivity |]. repeat split. }
  split; [exact Hstart |].
  destruct Hstart as (m & pinned & -> & _).
  apply main_loop_sound.
  unfold refs_valid. simpl. repeat (apply Forall_cons; split; [lia |]).
  apply Forall_nil. trivial.
Qed.

End ConsoleProperties.

(** ** The further theorems at work on the fixtures *)

Import Scenario.

Lemma get_response_error_status_witness :
  let message_list := JList (to_dict <$> [pinned0; hello]) in
  status_code (down_service (posted world0) (request_of api_key message_list)) = 500 /\
  get_response char_encode down_service api_key 3 message_list None world0
  = (Ret None, World [request_of api_key message_list] 0).
Proof.
  intros message_list. split; [reflexivity |].
  exact (get_response_error_status char_encode down_service api_key 2 message_list None
           world0 ltac:(vm_compute; discriminate) ltac:(vm_compute; discriminate)).
Defined.

Lemma get_response_200_once_witness :
  let message_list := JList (to_dict <$> [pinned0; hello]) in
  exists o,
    get_response char_encode (ok_service " so far ") api_key 1 message_list None world0
      = (o, World [request_of api_key message_list] 0) /\
    exists m, o = Ret (Some m) /\ role m = "user" /\ content m = "so far".
Proof.
  intros message_list.
  exact (get_response_200_once char_encode (ok_service " so far ") api_key 0
           message_list None world0 eq_refl).
Defined.

Lemma get_response_rate_limited_forever_witness :
  let message_list := JList (to_dict <$> [pinned0; hello]) in
  get_response char_encode limiting_service api_key 4 message_list None world0
  = (Diverge, World (replicate 4 (request_of api_key message_list)) 4).
Proof.
  intros message_list.
  exact (get_response_rate_limited_forever char_encode limiting_service api_key
           message_list None (fun _ => eq_refl) 4%nat world0).
Defined.

Lemma get_prepared_context_fits_witness :
  messages_of (context_list context0) = Some [pinned0] /\
  get_prepared_context char_encode down_service api_key 1 hello (context0, world0)
  = (Ret (to_dict <$> [pinned0; hello]), (context_hello, world0)).
Proof.
  split; [reflexivity |].
  exact (get_prepared_context_fits char_encode down_service api_key 0 hello context0
           world0 [pinned0] eq_refl ltac:(vm_compute; discriminate)).
Defined.

Lemma oversized_prompt_never_returns_witness :
  API_TOKEN_LIMIT < get_tokenlen char_encode huge + MAX_TOKENS
                    + get_tokenlen char_encode (summary_message context0) /\
  (forall fuel out s',
     get_prepared_context char_encode (ok_service " so far ") api_key fuel huge
       (context0, world0) <> (Ret out, s')) /\
  (forall fuel r s',
     submit_prompt char_encode (ok_service " so far ") api_key fuel huge
       (manager0, world0) <> (Ret r, s')).
Proof.
  assert (Hover : API_TOKEN_LIMIT < get_tokenlen char_encode huge + MAX_TOKENS
                                    + get_tokenlen char_encode (summary_message context0)).
  { vm_compute. reflexivity. }
  split; [exact Hover |].
  destruct (oversized_prompt_never_returns char_encode (ok_service " so far ") api_key
              huge context0 world0 Hover) as [Hprep Hsubmit].
  split; [exact Hprep |].
  intros fuel. exact (Hsubmit fuel [Some pinned0]).
Defined.

Lemma none_in_context_raises_witness :
  None ∈ context_list (context poisoned) /\
  submit_prompt char_encode (ok_service " so far ") api_key 5 hello (poisoned, world0)
  = (Raise AttributeError, (poisoned, world0)).
Proof.
  assert (Hin : None ∈ context_list (context poisoned)).
  { apply elem_of_cons. right. apply elem_of_cons. left. reflexivity. }
  split; [exact Hin |].
  exact (proj2 (none_in_context_raises char_encode (ok_service " so far ") api_key 4
                  hello poisoned world0 Hin)).
Defined.

Lemma submit_prompt_hello :
  submit_prompt char_encode (ok_service " so far ") api_key 5 hello (manager0, world0)
  = (Ret (Some reply),
     (mkChatManager context_hello [Some pinned0; Some hello; Some reply],
      World [chat_request [pinned0; hello]] 0)).
Proof. vm_compute. reflexivity. Defined.

Lemma submit_prompt_returns_witness :
  submit_prompt char_encode (ok_service " so far ") api_key 5 hello (manager0, world0)
  = (Ret (Some reply),
     (mkChatManager context_hello [Some pinned0; Some hello; Some reply],
      World [chat_request [pinned0; hello]] 0)) /\
  last (context_list context_hello) = Some (Some hello) /\
  [Some pinned0; Some hello; Some reply] = history manager0 ++ [Some hello; Some reply] /\
  (forall x, Some reply = Some x -> role x = "assistant").
Proof.
  split; [exact submit_prompt_hello |].
  exact (proj2 (submit_prompt_returns char_encode (ok_service " so far ") api_key 5 hello
                  manager0 world0 _ _ _ submit_prompt_hello)).
Defined.

Lemma reset_chat_restores_witness :
  run_manager_calls char_encode (ok_service " so far ") api_key 5
    [CallSubmit long1; CallSubmit long2] (manager0, world0) = Some (manager2, world2) /\
  reset_chat (manager2, world2) = (Ret tt, (manager0, world2)).
Proof.
  assert (Hrun : run_manager_calls char_encode (ok_service " so far ") api_key 5
                   [CallSubmit long1; CallSubmit long2] (manager0, world0)
                 = Some (manager2, world2)).
  { vm_compute. reflexivity. }
  split; [exact Hrun |].
  exact (reset_chat_restores char_encode (ok_service " so far ") api_key helpful world0 5
           _ manager0 world0 manager2 world2 eq_refl Hrun).
Defined.

Lemma get_history_after_failure_witness :
  submit_prompt char_encode down_service api_key 5 hello (manager0, world0)
  = (Ret None, (manager_failed, World [chat_request [pinned0; hello]] 0)) /\
  get_history (manager_failed, world0) = (Raise AttributeError, (manager_failed, world0)).
Proof.
  assert (Hsubmit : submit_prompt char_encode down_service api_key 5 hello
                      (manager0, world0)
                    = (Ret None, (manager_failed, World [chat_request [pinned0; hello]] 0))).
  { vm_compute. reflexivity. }
  split; [exact Hsubmit |].
  exact (get_history_after_failure char_encode down_service api_key 5 hello manager0
           world0 _ _ Hsubmit world0).
Defined.

Lemma nobody_is_missing :
  forall r, r ∈ personality_list personalities0 -> get_name r store0 <> Some "Nobody".
Proof.
  intros r Hr.
  repeat (apply elem_of_cons in Hr as [-> | Hr]; [vm_compute; discriminate |]).
  inversion Hr.
Defined.

Lemma missing_name_raises_witness :
  set_personality_name "Nobody" "Somebody" (personalities0, store0)
    = (Raise AttributeError, (personalities0, store0)) /\
  remove_personality "Nobody" (personalities0, store0) = RaisedValueError.
Proof.
  destruct (missing_name_raises "Nobody" "Somebody" (personalities0, store0)
              nobody_is_missing) as (Hname & _ & _ & Hremove).
  split; [exact Hname | exact Hremove].
Defined.

Lemma set_personality_name_renames_witness :
  first_named "Snarky" store0 (personality_list personalities0) = Some 3%nat /\
  exists st',
    set_personality_name "Snarky" "Sardonic" (personalities0, store0)
      = (Ret tt, (personalities0, st')) /\
    get_name 3 st' = Some "Sardonic" /\
    names_of st' [3; 0; 3]%nat = [Some "Sardonic"; Some "Helpful"; Some "Sardonic"].
Proof.
  split; [reflexivity |].
  destruct (set_personality_name_renames "Snarky" "Sardonic" personalities0 store0 3
              eq_refl) as (st' & Hrun & _ & Hname & _ & _ & _ & Hnames).
  exists st'. split; [exact Hrun |]. split; [exact Hname |].
  rewrite Hnames. reflexivity.
Defined.

Lemma remove_personality_first_witness :
  first_named "Comedian" store0 (personality_list personalities0) = Some 1%nat /\
  exists i,
    personality_list personalities0 !! i = Some 1%nat /\
    remove_personality "Comedian" (personalities0, store0)
      = Removed (mkPersonalityManager (delete i (personality_list personalities0)),
                 store0).
Proof.
  split; [reflexivity |].
  destruct (remove_personality_first "Comedian" personalities0 store0 1 eq_refl)
    as (i & Hi & _ & Hrun & _).
  exists i. split; [exact Hi | exact Hrun].
Defined.

Lemma add_personality_then_get_witness :
  get_name 4 store0 = Some "Counselor" /\
  get_personality "Counselor"
    (mkPersonalityManager (personality_list personalities0 ++ [4%nat]), store0)
  = (Ret (Some 4%nat),
     (mkPersonalityManager (personality_list personalities0 ++ [4%nat]), store0)).
Proof.
  split; [reflexivity |].
  exact (proj1 (proj2 (add_personality_then_get 4 "Counselor" personalities0 store0
                         eq_refl))).
Defined.

Lemma refs_valid_kept_witness :
  refs_valid (personalities0, store0) /\
  refs_valid (snd (add_personality 2 (personalities0, store0))).
Proof.
  destruct refs_valid_kept as (Hinit & _ & Hadd & _).
  split; [exact (Hinit []) |].
  apply Hadd; [exact (Hinit []) |]. simpl. lia.
Defined.

Lemma main_loop_crashes_on_service_error_witness :
  main_loop char_encode down_service api_key decimal 3 3 (console ["Hello there"])
  = Crashed AttributeError
      (MainState store0 personalities0 manager_failed
         (World [chat_request [pinned0; hello]] 0) []) /\
  main_loop char_encode garbled_service api_key decimal 3 3 (console ["Hello there"])
  = Crashed JSONDecodeError
      (MainState store0 personalities0
         (mkChatManager context_hello [Some pinned0])
         (World [chat_request [pinned0; hello]] 0) []).
Proof.
  split.
  - exact (main_loop_crashes_on_service_error char_encode down_service api_key decimal
             2 2 (console ["Hello there"]) "Hello there" [] [pinned0] eq_refl
             ltac:(vm_compute; discriminate) ltac:(vm_compute; discriminate)
             ltac:(vm_compute; discriminate) eq_refl ltac:(vm_compute; discriminate)
             ltac:(vm_compute; discriminate) ltac:(vm_compute; discriminate)).
  - exact (main_loop_crashes_on_service_error char_encode garbled_service api_key decimal
             2 2 (console ["Hello there"]) "Hello there" [] [pinned0] eq_refl
             ltac:(vm_compute; discriminate) ltac:(vm_compute; discriminate)
             ltac:(vm_compute; discriminate) eq_refl ltac:(vm_compute; discriminate)
             ltac:(vm_compute; discriminate) ltac:(vm_compute; discriminate)).
Defined.

Lemma selection_counts_from_the_end_witness :
  decimal "0" = Some 0 /\
  personality_list personalities0 !! 4%nat = Some 4%nat /\
  get_name 4 store0 = Some "Counselor" /\
  exists p m,
    store0 !! 4%nat = Some p /\
    ChatManager_init char_encode p world0 = (Ret m, world0) /\
    main_loop char_encode down_service api_key decimal 3 3 (console ["#Personality"; "0"])
    = main_loop char_encode down_service api_key decimal 2 3
        (MainState store0 personalities0 m world0 []).
Proof.
  split; [reflexivity |]. split; [reflexivity |]. split; [reflexivity |].
  eexists.
  destruct (selection_counts_from_the_end char_encode down_service api_key decimal 2 3
              (console ["#Personality"; "0"]) "#Personality" "0" [] 0 4 _
              eq_refl eq_refl eq_refl ltac:(vm_compute; split; [discriminate | reflexivity])
              eq_refl eq_refl) as (m & Hinit & Hrun).
  exists m. split; [reflexivity |]. split; [exact Hinit | exact Hrun].
Defined.

Lemma selection_below_range_crashes_witness :
  decimal "-5" = Some (-5) /\
  main_loop char_encode down_service api_key decimal 3 3 (console ["#personality"; "-5"])
  = Crashed IndexError (console []).
Proof.
  split; [reflexivity |].
  exact (selection_below_range_crashes char_encode down_service api_key decimal 2 3
           (console ["#personality"; "-5"]) "#personality" "-5" [] (-5)
           eq_refl eq_refl eq_refl ltac:(vm_compute; reflexivity)).
Defined.

Lemma selection_refused_witness :
  decimal "seven" = None /\
  main_loop char_encode down_service api_key decimal 3 3
    (console ["#PERSONALITY"; "seven"; "quit"])
  = main_loop char_encode down_service api_key decimal 2 3 (console ["quit"]).
Proof.
  split; [reflexivity |].
  exact (selection_refused char_encode down_service api_key decimal 2 3
           (console ["#PERSONALITY"; "seven"; "quit"]) "#PERSONALITY" "seven" ["quit"]
           eq_refl eq_refl (or_introl eq_refl)).
Defined.

Lemma selection_custom_witness :
  decimal "6" = Some 6 /\
  exists m,
    context_list (context m)
      = [Some (message_at 0 "system" "You are a pirate.")] /\
    main_loop char_encode down_service api_key decimal 3 3
      (console ["#personality"; "6"; "Pirate"; "You are a pirate."; "quit"])
    = main_loop char_encode down_service api_key decimal 2 3
        (MainState (store0 ++ [mkPersonality "Pirate" "Custom" "You are a pirate."])
           (mkPersonalityManager (personality_list personalities0 ++ [5%nat])) m world0
           ["quit"]).
Proof.
  split; [reflexivity |].
  destruct (selection_custom char_encode down_service api_key decimal 2 3
              (console ["#personality"; "6"; "Pirate"; "You are a pirate."; "quit"])
              "#personality" "6" "Pirate" "You are a pirate." ["quit"] 6
              eq_refl eq_refl eq_refl eq_refl) as (m & Hinit & _ & Hrun).
  exists m. split; [| exact Hrun].
  injection Hinit as <-. reflexivity.
Defined.

